(** * Kitchen Ingredient Recipe Finder: a model of [script.js]

    The script is browser glue code: it classifies an uploaded picture with
    MobileNet, maps the class names to a small ingredient vocabulary and asks
    TheMealDB for recipes.  This development embeds the script as Rocq
    functions over an explicit page state and proves the properties its
    specification states, and further properties that the code shows.

    Conventions.
    - A JavaScript string is a [string]; each [ascii] stands for one UTF-16
      code unit below 256 (the Latin-1 range).
    - A JavaScript number is a binary64 value, [spec_float]; a literal of
      the script is read with [Prim2SF], so [0.20] is the double that the
      engine compares with.
    - A JavaScript [Set] is the list of its elements in insertion order.
    - Suspended [async] code is a task of the page state, resumed by an
      event of the environment (the event loop is single-threaded).

    Scope.
    - The classifier and the recipe service are the environment: what they
      answer comes with the event that settles the pending call. A parsed
      response body is an object whose [meals] is [null] or an array of
      records with string fields, as the service documents it.
    - The preview of the chosen file (lines 61-69) is not modelled; of
      [imageUpload] the page keeps whether [files[0]] is there. *)

From Stdlib Require Import String Ascii List Bool NArith ZArith Lia.
From Stdlib Require Import Permutation.
From Stdlib Require Import PrimFloat FloatOps SpecFloat.
Import ListNotations.

Set Implicit Arguments.
Set Warnings "-inexact-float".

Local Open Scope string_scope.
Local Open Scope list_scope.

(** ** JavaScript values that [ingredientMap[key]] can produce *)

(** A property read on the object literal [ingredientMap] finds an own
    property (a string) or, failing that, a property of [Object.prototype]:
    one of its built-in functions, or [Object.prototype] itself through the
    [__proto__] accessor. *)
Inductive value : Type :=
| VString (s : string)
| VBuiltin (name : string)
| VObjectPrototype.

Definition value_eqb (a b : value) : bool :=
  match a, b with
  | VString s, VString t => String.eqb s t
  | VBuiltin s, VBuiltin t => String.eqb s t
  | VObjectPrototype, VObjectPrototype => true
  | _, _ => false
  end.

(** ToBoolean: the empty string is the only falsy value of the type. *)
Definition truthy (v : value) : bool :=
  match v with
  | VString "" => false
  | _ => true
  end.

(** ** Numbers *)

Definition number : Type := spec_float.

(** [a > b] on numbers; [false] when either side is NaN. *)
Definition js_gt (a b : number) : bool := SFltb b a.

(** [a <= b] on numbers; [false] when either side is NaN. *)
Definition js_le (a b : number) : bool := SFleb a b.

(** The literal [0.20] of line 102. *)
Definition confidenceThreshold : number := Eval vm_compute in Prim2SF 0.20.

(** ** Strings: [split(',')] and [trim()] *)

Definition comma : ascii := ","%char.

(** [s.split(',')]: the pieces between commas, never an empty array. *)
Fixpoint split_comma (s : string) : list string :=
  match s with
  | EmptyString => [EmptyString]
  | String c rest =>
      if Ascii.eqb c comma then EmptyString :: split_comma rest
      else match split_comma rest with
           | piece :: pieces => String c piece :: pieces
           | [] => [String c EmptyString]
           end
  end.

(** White space and line terminators of ECMAScript among the code units
    below 256: TAB, LF, VT, FF, CR, SP and NBSP. *)
Definition is_white_space (c : ascii) : bool :=
  match N_of_ascii c with
  | 9%N | 10%N | 11%N | 12%N | 13%N | 32%N | 160%N => true
  | _ => false
  end.

Fixpoint trim_start (s : string) : string :=
  match s with
  | EmptyString => EmptyString
  | String c rest => if is_white_space c then trim_start rest else s
  end.

Fixpoint trim_end (s : string) : string :=
  match s with
  | EmptyString => EmptyString
  | String c rest =>
      match trim_end rest with
      | EmptyString => if is_white_space c then EmptyString
                       else String c EmptyString
      | kept => String c kept
      end
  end.

(** [s.trim()]. *)
Definition trim (s : string) : string := trim_end (trim_start s).

(** ** The ingredient vocabulary *)

Fixpoint assoc {A : Type} (key : string) (l : list (string * A)) : option A :=
  match l with
  | [] => None
  | (k, v) :: rest => if String.eqb key k then Some v else assoc key rest
  end.

(** The own properties of the object literal of lines 18-48. *)
Definition ingredientMap : list (string * string) :=
  [ ("banana", "banana");
    ("Granny Smith", "apple");
    ("strawberry", "strawberry");
    ("orange", "orange");
    ("lemon", "lemon");
    ("pineapple", "pineapple");
    ("cucumber", "cucumber");
    ("carrot", "carrot");
    ("broccoli", "broccoli");
    ("cauliflower", "cauliflower");
    ("bell pepper", "pepper");
    ("chili pepper", "pepper");
    ("jalapeno", "pepper");
    ("potato", "potato");
    ("cabbage", "cabbage");
    ("lettuce", "lettuce");
    ("mushroom", "mushroom");
    ("garlic", "garlic");
    ("ginger", "ginger");
    ("onion", "onion");
    ("egg", "egg");
    ("bagel", "bread");
    ("pretzel", "bread");
    ("dough", "bread");
    ("pizza", "pizza");
    ("bacon", "bacon");
    ("hotdog", "hot dog");
    ("hamburger", "beef");
    ("cheeseburger", "beef") ].

(** The properties of [Object.prototype], the prototype of every object
    literal (ECMAScript 20.1.3 and Annex B.2.2). *)
Definition Object_prototype : list (string * value) :=
  [ ("constructor", VBuiltin "Object");
    ("hasOwnProperty", VBuiltin "hasOwnProperty");
    ("isPrototypeOf", VBuiltin "isPrototypeOf");
    ("propertyIsEnumerable", VBuiltin "propertyIsEnumerable");
    ("toLocaleString", VBuiltin "toLocaleString");
    ("toString", VBuiltin "toString");
    ("valueOf", VBuiltin "valueOf");
    ("__defineGetter__", VBuiltin "__defineGetter__");
    ("__defineSetter__", VBuiltin "__defineSetter__");
    ("__lookupGetter__", VBuiltin "__lookupGetter__");
    ("__lookupSetter__", VBuiltin "__lookupSetter__");
    ("__proto__", VObjectPrototype) ].

(** [ingredientMap[key]]: [None] is [undefined]. *)
Definition get_property (key : string) : option value :=
  match assoc key ingredientMap with
  | Some name => Some (VString name)
  | None => assoc key Object_prototype
  end.

(** The value set of the vocabulary. *)
Definition vocabulary_values : list string := map snd ingredientMap.

(** ** The label resolver (lines 95-106) *)

Record prediction : Type := {
  className : string;
  probability : number
}.

(** [set.add(v)]: insertion order is kept, a member is not added again. *)
Definition set_add (v : value) (s : list value) : list value :=
  if existsb (value_eqb v) s then s else s ++ [v].

(** One iteration of the [for ... of parts] loop (lines 101-104):
    [undefined] is falsy, and [&&] tests the number only for a truthy
    property. *)
Definition resolve_part (pred : prediction) (recognised : list value)
    (part : string) : list value :=
  let trimmed := trim part in
  match get_property trimmed with
  | Some v =>
      if truthy v && js_gt (probability pred) confidenceThreshold
      then set_add v recognised
      else recognised
  | None => recognised
  end.

(** The callback of [predictions.forEach] (lines 96-106). *)
Definition resolve_prediction (recognised : list value) (pred : prediction)
    : list value :=
  fold_left (resolve_part pred) (split_comma (className pred)) recognised.

(** Lines 95-106: the set [recognised] once the loop is over. *)
Definition resolve (predictions : list prediction) : list value :=
  fold_left resolve_prediction predictions [].

(** [contributes pred v]: some comma-separated part of the label of [pred],
    once trimmed, names a truthy property [v] of [ingredientMap], and the
    confidence of [pred] is above the threshold. *)
Definition contributes (pred : prediction) (v : value) : Prop :=
  exists part,
    In part (split_comma (className pred))
    /\ get_property (trim part) = Some v
    /\ truthy v = true
    /\ js_gt (probability pred) confidenceThreshold = true.

(** A literal of the script as a number. *)
Definition lit (f : float) : number := Prim2SF f.

(** ** The recipe service and the page *)

(** A record of the service's [meals] array. *)
Record meal : Type := {
  strMeal : string;
  strMealThumb : string;
  idMeal : string
}.

(** A thrown value: an [Error] with its message. *)
Inductive exn : Type :=
| JsError (message : string).

(** What [response.json()] settles to: a rejection (the body is not JSON),
    or the parsed object with its [meals] property, [None] standing for
    [null]. *)
Inductive json_result : Type :=
| JsonRejects (e : exn)
| JsonData (meals : option (list meal)).

Record response : Type := {
  ok : bool;
  body : json_result
}.

(** What [fetch(url)] settles to. *)
Inductive fetch_result : Type :=
| FetchRejects (e : exn)
| FetchResolves (r : response).

(** The elements that [fetchRecipes] builds for one meal. *)
Record img_element : Type := {
  img_src : string;
  img_alt : string
}.

Record a_element : Type := {
  a_href : string;
  a_target : string;
  a_rel : string;
  a_textContent : string
}.

Record recipe_card : Type := {
  card_className : string;
  card_img : img_element;
  info_className : string;
  info_title : string;
  info_link : a_element
}.

Inductive console_arg : Type :=
| ArgString (s : string)
| ArgError (e : exn).

Inductive console_entry : Type :=
| ConsoleLog (args : list console_arg)
| ConsoleError (args : list console_arg).

(** Suspended [async] code: each task is one pending [await] (or, for the
    image, the pending [load] event). *)
Inductive task : Type :=
| ModelLoading
| ImageLoading
| Classifying
| Fetching (ingredient : value) (url : string)
| ReadingJson (ingredient : value) (b : json_result).

(** The state that the script reads and writes. [ingredientList] holds the
    text of the [<li>] children and [recipesContainer] the appended cards.
    [unhandled] collects the rejections that no handler catches. *)
Record page : Type := {
  model : bool;
  files0 : bool;
  analyzeBtn_disabled : bool;
  analyzeBtn_textContent : string;
  ingredientList : list string;
  recipesContainer : list recipe_card;
  alerts : list string;
  console : list console_entry;
  unhandled : list exn;
  pending : list task
}.

Definition set_model (b : bool) (s : page) : page :=
  {| model := b; files0 := files0 s;
     analyzeBtn_disabled := analyzeBtn_disabled s;
     analyzeBtn_textContent := analyzeBtn_textContent s;
     ingredientList := ingredientList s;
     recipesContainer := recipesContainer s;
     alerts := alerts s; console := console s;
     unhandled := unhandled s; pending := pending s |}.

Definition set_files0 (b : bool) (s : page) : page :=
  {| model := model s; files0 := b;
     analyzeBtn_disabled := analyzeBtn_disabled s;
     analyzeBtn_textContent := analyzeBtn_textContent s;
     ingredientList := ingredientList s;
     recipesContainer := recipesContainer s;
     alerts := alerts s; console := console s;
     unhandled := unhandled s; pending := pending s |}.

Definition set_disabled (b : bool) (s : page) : page :=
  {| model := model s; files0 := files0 s;
     analyzeBtn_disabled := b;
     analyzeBtn_textContent := analyzeBtn_textContent s;
     ingredientList := ingredientList s;
     recipesContainer := recipesContainer s;
     alerts := alerts s; console := console s;
     unhandled := unhandled s; pending := pending s |}.

Definition set_textContent (t : string) (s : page) : page :=
  {| model := model s; files0 := files0 s;
     analyzeBtn_disabled := analyzeBtn_disabled s;
     analyzeBtn_textContent := t;
     ingredientList := ingredientList s;
     recipesContainer := recipesContainer s;
     alerts := alerts s; console := console s;
     unhandled := unhandled s; pending := pending s |}.

Definition set_ingredientList (l : list string) (s : page) : page :=
  {| model := model s; files0 := files0 s;
     analyzeBtn_disabled := analyzeBtn_disabled s;
     analyzeBtn_textContent := analyzeBtn_textContent s;
     ingredientList := l;
     recipesContainer := recipesContainer s;
     alerts := alerts s; console := console s;
     unhandled := unhandled s; pending := pending s |}.

Definition set_recipesContainer (l : list recipe_card) (s : page) : page :=
  {| model := model s; files0 := files0 s;
     analyzeBtn_disabled := analyzeBtn_disabled s;
     analyzeBtn_textContent := analyzeBtn_textContent s;
     ingredientList := ingredientList s;
     recipesContainer := l;
     alerts := alerts s; console := console s;
     unhandled := unhandled s; pending := pending s |}.

Definition set_pending (l : list task) (s : page) : page :=
  {| model := model s; files0 := files0 s;
     analyzeBtn_disabled := analyzeBtn_disabled s;
     analyzeBtn_textContent := analyzeBtn_textContent s;
     ingredientList := ingredientList s;
     recipesContainer := recipesContainer s;
     alerts := alerts s; console := console s;
     unhandled := unhandled s; pending := l |}.

(** [alert(message)]. *)
Definition alert (message : string) (s : page) : page :=
  {| model := model s; files0 := files0 s;
     analyzeBtn_disabled := analyzeBtn_disabled s;
     analyzeBtn_textContent := analyzeBtn_textContent s;
     ingredientList := ingredientList s;
     recipesContainer := recipesContainer s;
     alerts := alerts s ++ [message]; console := console s;
     unhandled := unhandled s; pending := pending s |}.

(** [console.log(...)] and [console.error(...)]. *)
Definition console_write (entry : console_entry) (s : page) : page :=
  {| model := model s; files0 := files0 s;
     analyzeBtn_disabled := analyzeBtn_disabled s;
     analyzeBtn_textContent := analyzeBtn_textContent s;
     ingredientList := ingredientList s;
     recipesContainer := recipesContainer s;
     alerts := alerts s; console := console s ++ [entry];
     unhandled := unhandled s; pending := pending s |}.

(** A rejected promise that nothing handles. *)
Definition report_unhandled (e : exn) (s : page) : page :=
  {| model := model s; files0 := files0 s;
     analyzeBtn_disabled := analyzeBtn_disabled s;
     analyzeBtn_textContent := analyzeBtn_textContent s;
     ingredientList := ingredientList s;
     recipesContainer := recipesContainer s;
     alerts := alerts s; console := console s;
     unhandled := unhandled s ++ [e]; pending := pending s |}.

(** [element.appendChild(child)]. *)
Definition ingredientList_appendChild (li : string) (s : page) : page :=
  set_ingredientList (ingredientList s ++ [li]) s.

Definition recipesContainer_appendChild (card : recipe_card) (s : page)
    : page :=
  set_recipesContainer (recipesContainer s ++ [card]) s.

(** A new [await]: the task joins the pending ones. *)
Definition suspend (t : task) (s : page) : page :=
  set_pending (pending s ++ [t]) s.

(** ** [encodeURIComponent] *)

Definition hex_digit (n : N) : ascii :=
  ascii_of_N (if (n <? 10)%N then 48 + n else 55 + n)%N.

Definition percent (byte : N) : string :=
  String "%" (String (hex_digit (byte / 16)) (String (hex_digit (byte mod 16)) "")).

Definition uri_unreserved (c : ascii) : bool :=
  let n := N_of_ascii c in
  ((65 <=? n) && (n <=? 90) || (97 <=? n) && (n <=? 122)
   || (48 <=? n) && (n <=? 57))%N
  || existsb (Ascii.eqb c)
       ["-"; "_"; "."; "!"; "~"; "*"; "'"; "("; ")"]%char.

(** A code unit below 128 is one UTF-8 byte, one from 128 to 255 is two. *)
Fixpoint encodeURIComponent (s : string) : string :=
  match s with
  | EmptyString => EmptyString
  | String c rest =>
      let n := N_of_ascii c in
      (if uri_unreserved c then String c EmptyString
       else if (n <? 128)%N then percent n
       else percent (192 + n / 64) ++ percent (128 + n mod 64))
      ++ encodeURIComponent rest
  end.

(** The text that V8 gives a built-in function. *)
Definition v8_builtin_source (name : string) : string :=
  "function " ++ name ++ "() { [native code] }".

(** ** The script *)

(** How a stretch of [async] code ends: it returns, it throws, or it
    reaches an [await] and leaves a task behind. *)
Inductive signal : Type :=
| Return
| Throw (e : exn)
| Await (t : task).

(** The promise of an [async] call that nothing observes: a task stays
    pending, a rejection is unhandled. *)
Definition settle (r : page * signal) : page :=
  match r with
  | (s, Return) => s
  | (s, Throw e) => report_unhandled e s
  | (s, Await t) => suspend t s
  end.

(** [array.slice(0, 3)]. *)
Definition slice_0_3 {A : Type} (l : list A) : list A := firstn 3 l.

(** The pending tasks without the one at position [n]. *)
Definition remove_nth {A : Type} (n : nat) (l : list A) : list A :=
  firstn n l ++ skipn (S n) l.

Section Script.

(** [Function.prototype.toString] of a built-in function, given its name:
    the text is left to the engine. *)
Variable builtin_source : string -> string.

(** ToString, as template literals, [textContent] and
    [encodeURIComponent] apply it. *)
Definition to_string (v : value) : string :=
  match v with
  | VString s => s
  | VBuiltin name => builtin_source name
  | VObjectPrototype => "[object Object]"
  end.

(** *** [fetchRecipes] (lines 126-161) *)

(** Line 128. *)
Definition recipe_url (ingredient : value) : string :=
  "https://www.themealdb.com/api/json/v1/1/filter.php?i="
  ++ encodeURIComponent (to_string ingredient).

(** Lines 138-155: the card of one meal. *)
Definition make_card (m : meal) : recipe_card :=
  {| card_className := "recipe-card";
     card_img := {| img_src := strMealThumb m; img_alt := strMeal m |};
     info_className := "recipe-info";
     info_title := strMeal m;
     info_link :=
       {| a_href := "https://www.themealdb.com/meal.php?c=" ++ idMeal m;
          a_target := "_blank";
          a_rel := "noopener noreferrer";
          a_textContent := "View recipe" |} |}.

(** The [try] block up to [await fetch(url)] (lines 128-129). *)
Definition fetchRecipes_try_call (ingredient : value) (s : page)
    : page * signal :=
  (s, Await (Fetching ingredient (recipe_url ingredient))).

(** The [try] block from the settled [fetch] to [await response.json()]
    (lines 129-131). *)
Definition fetchRecipes_try_response (ingredient : value)
    (r : fetch_result) (s : page) : page * signal :=
  match r with
  | FetchRejects e => (s, Throw e)
  | FetchResolves resp =>
      if negb (ok resp) then (s, Throw (JsError "API request failed"))
      else (s, Await (ReadingJson ingredient (body resp)))
  end.

(** The [try] block from the settled [response.json()] to its end
    (lines 131-157). *)
Definition fetchRecipes_try_data (ingredient : value) (b : json_result)
    (s : page) : page * signal :=
  match b with
  | JsonRejects e => (s, Throw e)
  | JsonData None =>
      (console_write
         (ConsoleLog
            [ArgString ("No recipes found for " ++ to_string ingredient
                        ++ ".")]) s,
       Return)
  | JsonData (Some meals) =>
      (fold_left (fun s' m => recipesContainer_appendChild (make_card m) s')
         (slice_0_3 meals) s,
       Return)
  end.

(** Line 159: [console.error('Error fetching recipes:', error)]. *)
Definition fetch_error (e : exn) : console_entry :=
  ConsoleError [ArgString "Error fetching recipes:"; ArgError e].

(** The [catch] clause (lines 158-160). *)
Definition catch (r : page * signal) : page * signal :=
  match r with
  | (s, Throw e) => (console_write (fetch_error e) s, Return)
  | _ => r
  end.

Definition fetchRecipes_call (ingredient : value) (s : page)
    : page * signal :=
  catch (fetchRecipes_try_call ingredient s).

Definition fetchRecipes_response (ingredient : value) (r : fetch_result)
    (s : page) : page * signal :=
  catch (fetchRecipes_try_response ingredient r s).

Definition fetchRecipes_data (ingredient : value) (b : json_result)
    (s : page) : page * signal :=
  catch (fetchRecipes_try_data ingredient b s).

(** *** [loadModel] (lines 51-58 and 164) *)

Definition loadModel_call (s : page) : page :=
  suspend ModelLoading
    (set_textContent "Loading model..." (set_disabled true s)).

(** [mobilenet.load()] has settled: [None] is a loaded model, [Some e] a
    rejection, which line 164 logs. *)
Definition loadModel_resume (r : option exn) (s : page) : page :=
  match r with
  | None =>
      console_write (ConsoleLog [ArgString "Model loaded"])
        (set_disabled false
           (set_textContent "Analyze Ingredients" (set_model true s)))
  | Some e => console_write (ConsoleError [ArgError e]) s
  end.

(** *** The click handler of [analyzeBtn] (lines 72-123) *)

(** Lines 73-91: up to the registration of [img.onload]. *)
Definition analyzeBtn_click (s : page) : page :=
  if negb (model s) then alert "Model not loaded yet, please wait." s
  else if negb (files0 s) then alert "Please upload an image first." s
  else
    suspend ImageLoading
      (set_textContent "Analyzing..."
         (set_disabled true
            (set_recipesContainer [] (set_ingredientList [] s)))).

(** Line 93: [img.onload] up to [await model.classify(img)]. *)
Definition img_onload_call (s : page) : page := suspend Classifying s.

(** Lines 114-119: the callback of [recognised.forEach], up to the
    [await] inside [fetchRecipes]. *)
Definition show_ingredient (s : page) (ingredient : value) : page :=
  settle
    (fetchRecipes_call ingredient
       (ingredientList_appendChild (to_string ingredient) s)).

(** Lines 93-122: [img.onload] once [model.classify(img)] has settled. A
    rejection leaves the handler through its promise, which nothing
    handles. *)
Definition img_onload_resume (r : exn + list prediction) (s : page)
    : page :=
  match r with
  | inl e => report_unhandled e s
  | inr predictions =>
      let recognised := resolve predictions in
      if Nat.eqb (length recognised) 0 then
        set_disabled false
          (set_textContent "Analyze Ingredients"
             (set_ingredientList ["No recognizable ingredients found."] s))
      else
        set_disabled false
          (set_textContent "Analyze Ingredients"
             (fold_left show_ingredient recognised s))
  end.

(** *** The event loop *)

(** What the environment settles a pending task with. *)
Inductive settlement : Type :=
| ModelSettles (r : option exn)
| ImageLoads
| ClassifySettles (r : exn + list prediction)
| FetchSettles (r : fetch_result)
| JsonSettles.

Inductive event : Type :=
| DOMContentLoaded
| Change (file : bool)
| Click
| Settle (n : nat) (o : settlement).

Definition resume (t : task) (o : settlement) (s : page) : option page :=
  match t, o with
  | ModelLoading, ModelSettles r => Some (loadModel_resume r s)
  | ImageLoading, ImageLoads => Some (img_onload_call s)
  | Classifying, ClassifySettles r => Some (img_onload_resume r s)
  | Fetching i _, FetchSettles r => Some (settle (fetchRecipes_response i r s))
  | ReadingJson i b, JsonSettles => Some (settle (fetchRecipes_data i b s))
  | _, _ => None
  end.

(** One turn of the event loop; [None] when the event does not fit the
    pending task it names. *)
Definition step (s : page) (e : event) : option page :=
  match e with
  | DOMContentLoaded => Some (loadModel_call s)
  | Change file => Some (set_files0 file s)
  | Click => Some (analyzeBtn_click s)
  | Settle n o =>
      match nth_error (pending s) n with
      | Some t => resume t o (set_pending (remove_nth n (pending s)) s)
      | None => None
      end
  end.

Fixpoint run (s : page) (es : list event) : option page :=
  match es with
  | [] => Some s
  | e :: rest =>
      match step s e with
      | Some s' => run s' rest
      | None => None
      end
  end.

(** *** One call of [fetchRecipes] seen as a whole *)

(** The two resumptions of one call, with nothing else running between
    them. *)
Definition fetchRecipes_settled (ingredient : value) (r : fetch_result)
    (s : page) : page * signal :=
  match fetchRecipes_response ingredient r s with
  | (s', Await (ReadingJson i b)) => fetchRecipes_data i b s'
  | other => other
  end.

(** The failures of a recipe request: [fetch] rejects (the network is
    unreachable), the status is not a success, or [response.json()] rejects
    (the body is malformed). *)
Definition task_fails (t : task) (o : settlement) : option exn :=
  match t, o with
  | Fetching _ _, FetchSettles (FetchRejects e) => Some e
  | Fetching _ _, FetchSettles (FetchResolves resp) =>
      if ok resp then None else Some (JsError "API request failed")
  | ReadingJson _ (JsonRejects e), JsonSettles => Some e
  | _, _ => None
  end.


(** A page whose model is loaded and whose file is chosen, with nothing
    displayed and nothing pending. *)
Definition ready_page : page :=
  {| model := true; files0 := true;
     analyzeBtn_disabled := false;
     analyzeBtn_textContent := "Analyze Ingredients";
     ingredientList := []; recipesContainer := [];
     alerts := []; console := []; unhandled := []; pending := [] |}.

(** The predictions of the specification's scenario. *)
Definition fruit_predictions : list prediction :=
  [ {| className := "banana"; probability := lit 0.9 |};
    {| className := "Granny Smith"; probability := lit 0.5 |};
    {| className := "lemon"; probability := lit 0.1 |} ].

(** Two records of the service, for the examples. *)
Definition apple_meals : list meal :=
  [ {| strMeal := "Apple Tart";
       strMealThumb := "https://www.themealdb.com/images/tart.jpg";
       idMeal := "101" |};
    {| strMeal := "Apple Crumble";
       strMealThumb := "https://www.themealdb.com/images/crumble.jpg";
       idMeal := "102" |} ].

(** ** Notions that the properties use *)

(** Every code unit of [s] is white space. *)
Fixpoint all_white_space (s : string) : bool :=
  match s with
  | EmptyString => true
  | String c rest => is_white_space c && all_white_space rest
  end.

(** No code unit of [s] is a comma. *)
Fixpoint comma_free (s : string) : bool :=
  match s with
  | EmptyString => true
  | String c rest => negb (Ascii.eqb c comma) && comma_free rest
  end.

(** The values that a read of a property of [ingredientMap] can give, own
    or inherited, each of them once. *)
Definition property_values : list value :=
  fold_left (fun acc v => set_add v acc)
    (map VString vocabulary_values ++ map snd Object_prototype) [].

(** One prediction for every property name of [ingredientMap], own or
    inherited, each with confidence 0.9. *)
Definition every_key_predictions : list prediction :=
  map (fun key => {| className := key; probability := lit 0.9 |})
    (map fst ingredientMap ++ map fst Object_prototype).

(** A code unit that [encodeURIComponent] may put out: an unreserved one,
    or the percent sign of an escape. *)
Definition escaped_unit (c : ascii) : bool :=
  uri_unreserved c || Ascii.eqb c "%".

(** The delimiters of a URL's query and fragment, and the two ways to
    write a space. *)
Definition query_delimiters : list ascii :=
  ["&"; "="; "#"; "?"; "/"; ";"; ":"; "+"; " "]%char.

(** What settling a task leaves behind: the tasks it starts and the cards
    it appends. *)
Definition spawned (t : task) (new : list task) (cards : list recipe_card)
    : Prop :=
  match t with
  | ModelLoading => new = [] /\ cards = []
  | ImageLoading => new = [Classifying] /\ cards = []
  | Classifying =>
      cards = []
      /\ exists recognised,
           length recognised <= 36
           /\ new = map (fun i => Fetching i (recipe_url i)) recognised
  | Fetching i _ =>
      cards = [] /\ (new = [] \/ exists b, new = [ReadingJson i b])
  | ReadingJson _ _ => new = [] /\ length cards <= 3
  end.

(** The turns of the event loop that a pending task can still cause: its
    own, and those of the tasks it may start. *)
Definition task_turns (t : task) : nat :=
  match t with
  | ModelLoading => 1
  | ImageLoading => 74
  | Classifying => 73
  | Fetching _ _ => 2
  | ReadingJson _ _ => 1
  end.

(** The cards that a pending task can still cause. *)
Definition task_cards (t : task) : nat :=
  match t with
  | ModelLoading => 0
  | ImageLoading => 108
  | Classifying => 108
  | Fetching _ _ => 3
  | ReadingJson _ _ => 3
  end.

Definition pending_turns (tasks : list task) : nat :=
  list_sum (map task_turns tasks).

Definition pending_cards (tasks : list task) : nat :=
  list_sum (map task_cards tasks).

Definition is_settle (e : event) : bool :=
  match e with
  | Settle _ _ => true
  | _ => false
  end.

Definition is_click (e : event) : bool :=
  match e with
  | Click => true
  | _ => false
  end.

(** The label of the analyze control tells its state: disabled while the
    model loads or an image is analysed, enabled otherwise. *)
Definition label_consistent (s : page) : Prop :=
  (analyzeBtn_disabled s = true
   /\ (analyzeBtn_textContent s = "Loading model..."
       \/ analyzeBtn_textContent s = "Analyzing..."))
  \/ (analyzeBtn_disabled s = false
      /\ analyzeBtn_textContent s = "Analyze Ingredients").

(** The model is there whenever the page could use it: when the control
    is enabled, and when an image is loading or being classified. *)
Definition model_when_needed (s : page) : Prop :=
  (analyzeBtn_disabled s = false -> model s = true)
  /\ (In ImageLoading (pending s) -> model s = true)
  /\ (In Classifying (pending s) -> model s = true).

(** The page after the turn that settles the task [t] with [o], as the
    handlers write it, from the page [s1] that has retired the task;
    [None] when [o] does not fit [t]. *)
Definition settled_page (t : task) (o : settlement) (s1 : page)
    : option page :=
  match t, o with
  | ModelLoading, ModelSettles None =>
      Some (console_write (ConsoleLog [ArgString "Model loaded"])
              (set_disabled false
                 (set_textContent "Analyze Ingredients"
                    (set_model true s1))))
  | ModelLoading, ModelSettles (Some e) =>
      Some (console_write (ConsoleError [ArgError e]) s1)
  | ImageLoading, ImageLoads => Some (suspend Classifying s1)
  | Classifying, ClassifySettles (inl e) => Some (report_unhandled e s1)
  | Classifying, ClassifySettles (inr predictions) =>
      Some
        (set_disabled false
           (set_textContent "Analyze Ingredients"
              match resolve predictions with
              | [] =>
                  set_ingredientList
                    ["No recognizable ingredients found."] s1
              | recognised =>
                  set_pending
                    (pending s1
                     ++ map (fun i => Fetching i (recipe_url i)) recognised)
                    (set_ingredientList
                       (ingredientList s1 ++ map to_string recognised) s1)
              end))
  | Fetching _ _, FetchSettles (FetchRejects e) =>
      Some (console_write (fetch_error e) s1)
  | Fetching i _, FetchSettles (FetchResolves r) =>
      Some (if ok r then suspend (ReadingJson i (body r)) s1
            else console_write (fetch_error (JsError "API request failed"))
                   s1)
  | ReadingJson _ (JsonRejects e), JsonSettles =>
      Some (console_write (fetch_error e) s1)
  | ReadingJson i (JsonData None), JsonSettles =>
      Some (console_write
              (ConsoleLog
                 [ArgString
                    ("No recipes found for " ++ to_string i ++ ".")]) s1)
  | ReadingJson _ (JsonData (Some meals)), JsonSettles =>
      Some (set_recipesContainer
              (recipesContainer s1 ++ map make_card (firstn 3 meals)) s1)
  | _, _ => None
  end.

(** The turns of the example analysis that follow its click. *)
Definition analysis_turns : list event :=
  [ Settle 0 ImageLoads;
    Settle 0 (ClassifySettles (inr fruit_predictions));
    Settle 1 (FetchSettles
                (FetchResolves
                   {| ok := true; body := JsonData (Some apple_meals) |}));
    Settle 0 (FetchSettles (FetchRejects (JsError "Failed to fetch")));
    Settle 0 JsonSettles ].

(** The page at the end of the example analysis. *)
Definition analysis_page : page :=
  {| model := true; files0 := true;
     analyzeBtn_disabled := false;
     analyzeBtn_textContent := "Analyze Ingredients";
     ingredientList := ["banana"; "apple"];
     recipesContainer := map make_card apple_meals;
     alerts := [];
     console := [fetch_error (JsError "Failed to fetch")];
     unhandled := [];
     pending := [] |}.

(** A label whose second part names a key, with white space around it. *)
Definition padded_prediction : prediction :=
  {| className := "roll,  bagel "; probability := lit 0.5 |}.

(** An entry of the vocabulary that a label can reach: its key has no
    comma and no white space at its ends, and a read of the key gives the
    entry's name, which is truthy. *)
Definition reachable_entry (entry : string * string) : bool :=
  let (key, name) := entry in
  comma_free key
  && String.eqb (trim key) key
  && match get_property key with
     | Some v => value_eqb v (VString name) && truthy v
     | None => false
     end.

(** * Properties *)

(** ** Numbers *)

Lemma SFcompare_antisym (a b : spec_float) (c : comparison) :
  SFcompare a b = Some c -> SFcompare b a = Some (CompOpp c).
Proof.
  destruct a as [sa|sa| |sa ma ea], b as [sb|sb| |sb mb eb]; simpl;
    try discriminate;
    try (intros H; injection H as <-; destruct sa; try destruct sb;
         reflexivity).
  intros H; injection H as <-. f_equal.
  rewrite (Z.compare_antisym ea eb).
  pose proof (Pos.compare_cont_antisym mb ma Eq) as Hm. simpl in Hm.
  rewrite <- Hm.
  destruct sa, sb; try reflexivity;
    destruct (ea ?= eb)%Z; simpl; try reflexivity;
    destruct (Pos.compare_cont Eq mb ma); reflexivity.
Qed.

Lemma js_le_not_gt (a b : number) : js_le a b = true -> js_gt a b = false.
Proof.
  unfold js_le, js_gt, SFleb, SFltb.
  destruct (SFcompare a b) as [c|] eqn:E; [|discriminate].
  rewrite (SFcompare_antisym _ _ E).
  destruct c; simpl; congruence.
Qed.

(** ** Sets *)

Lemma value_eqb_eq (a b : value) : value_eqb a b = true <-> a = b.
Proof.
  destruct a, b; simpl; try (split; congruence).
  - rewrite String.eqb_eq. split; congruence.
  - rewrite String.eqb_eq. split; congruence.
Qed.

Lemma set_add_In (v w : value) (s : list value) :
  In v (set_add w s) <-> In v s \/ v = w.
Proof.
  unfold set_add.
  destruct (existsb (value_eqb w) s) eqn:E.
  - split; [now left|]. intros [H | ->]; [assumption|].
    apply existsb_exists in E as (x & Hx & Heq).
    apply value_eqb_eq in Heq. now subst.
  - rewrite in_app_iff. simpl. intuition congruence.
Qed.

(** ** The label resolver *)

Lemma resolve_part_In (pred : prediction) (recognised : list value)
    (part : string) (v : value) :
  In v (resolve_part pred recognised part) <->
  In v recognised
  \/ (get_property (trim part) = Some v /\ truthy v = true
      /\ js_gt (probability pred) confidenceThreshold = true).
Proof.
  unfold resolve_part.
  destruct (get_property (trim part)) as [w|] eqn:G.
  - destruct (truthy w) eqn:T; simpl.
    + destruct (js_gt (probability pred) confidenceThreshold) eqn:C.
      * rewrite set_add_In. split.
        -- intros [H | ->]; auto.
        -- intros [H | (H & _)]; [now left|]. right. congruence.
      * split; [now left|]. intros [H | (_ & _ & H)]; [assumption|discriminate].
    + split; [now left|].
      intros [H | (H & H' & _)]; [assumption|]. congruence.
  - split; [now left|]. intros [H | (H & _)]; [assumption|discriminate].
Qed.

Lemma resolve_parts_In (pred : prediction) (parts : list string)
    (recognised : list value) (v : value) :
  In v (fold_left (resolve_part pred) parts recognised) <->
  In v recognised
  \/ exists part, In part parts
       /\ get_property (trim part) = Some v /\ truthy v = true
       /\ js_gt (probability pred) confidenceThreshold = true.
Proof.
  revert recognised.
  induction parts as [|part parts IH]; intros recognised; simpl.
  - split; [now left|]. intros [H | (part & [] & _)]. assumption.
  - rewrite IH, resolve_part_In. split.
    + intros [[H | H] | (part' & Hin & H)]; auto.
      * right. exists part. auto.
      * right. exists part'. auto.
    + intros [H | (part' & [<- | Hin] & H)]; auto.
      right. exists part'. auto.
Qed.

Lemma resolve_prediction_In (recognised : list value) (pred : prediction)
    (v : value) :
  In v (resolve_prediction recognised pred) <->
  In v recognised \/ contributes pred v.
Proof. apply resolve_parts_In. Qed.

Lemma resolve_predictions_In (predictions : list prediction)
    (recognised : list value) (v : value) :
  In v (fold_left resolve_prediction predictions recognised) <->
  In v recognised
  \/ exists pred, In pred predictions /\ contributes pred v.
Proof.
  revert recognised.
  induction predictions as [|pred predictions IH]; intros recognised; simpl.
  - split; [now left|]. intros [H | (pred & [] & _)]. assumption.
  - rewrite IH, resolve_prediction_In. split.
    + intros [[H | H] | (pred' & Hin & H)]; auto.
      * right. exists pred. auto.
      * right. exists pred'. auto.
    + intros [H | (pred' & [<- | Hin] & H)]; auto.
      right. exists pred'. auto.
Qed.

(** The members of the resolved set are the values that some prediction
    contributes. *)
Lemma resolve_In (predictions : list prediction) (v : value) :
  In v (resolve predictions) <->
  exists pred, In pred predictions /\ contributes pred v.
Proof.
  unfold resolve. rewrite resolve_predictions_In. simpl. tauto.
Qed.

(** A prediction at or below the threshold leaves the set as it is. *)
Lemma resolve_prediction_below (recognised : list value)
    (pred : prediction) :
  js_gt (probability pred) confidenceThreshold = false ->
  resolve_prediction recognised pred = recognised.
Proof.
  intros Hlow. unfold resolve_prediction.
  induction (split_comma (className pred)) as [|part parts IH]; simpl.
  - reflexivity.
  - unfold resolve_part at 2.
    destruct (get_property (trim part)) as [w|]; [|exact IH].
    rewrite Hlow, andb_false_r. exact IH.
Qed.

Lemma split_comma_nonempty (s : string) : split_comma s <> [].
Proof.
  destruct s as [|c rest]; simpl; [discriminate|].
  destruct (Ascii.eqb c comma); [discriminate|].
  destruct (split_comma rest); discriminate.
Qed.

(** Joining the pieces with commas gives the label back. *)
Lemma split_comma_join (s : string) :
  String.concat "," (split_comma s) = s.
Proof.
  induction s as [|c rest IH]; [reflexivity|].
  simpl. destruct (Ascii.eqb c comma) eqn:E.
  - apply Ascii.eqb_eq in E. subst c.
    pose proof (split_comma_nonempty rest) as Hne.
    simpl. destruct (split_comma rest) as [|piece pieces]; [easy|].
    simpl in *. now rewrite IH.
  - pose proof (split_comma_nonempty rest) as Hne.
    destruct (split_comma rest) as [|piece pieces]; [easy|].
    simpl in *. destruct pieces; simpl in *; now rewrite <- IH.
Qed.

Lemma assoc_In_snd {A : Type} (key : string) (l : list (string * A))
    (v : A) :
  assoc key l = Some v -> In v (map snd l).
Proof.
  induction l as [|[k w] rest IH]; simpl; [discriminate|].
  destruct (String.eqb key k).
  - intros H. injection H as ->. now left.
  - intros H. right. now apply IH.
Qed.

(** X5: as long as no trimmed part of a label is the name of a property
    of [Object.prototype], the resolved set holds vocabulary values
    only. *)
Lemma resolve_own_properties (predictions : list prediction) :
  (forall pred part,
      In pred predictions -> In part (split_comma (className pred)) ->
      assoc (trim part) Object_prototype = None) ->
  forall v, In v (resolve predictions) ->
    exists name, v = VString name /\ In name vocabulary_values.
Proof.
  intros Hown v Hv.
  apply resolve_In in Hv as (pred & Hpred & part & Hpart & Hget & _).
  specialize (Hown pred part Hpred Hpart).
  unfold get_property in Hget.
  destruct (assoc (trim part) ingredientMap) as [name|] eqn:E.
  - injection Hget as <-. exists name. split; [reflexivity|].
    now apply assoc_In_snd with (key := trim part).
  - congruence.
Qed.

(** C1, evaluated on the script: the class name "constructor" with
    confidence 0.9 resolves to the function that [ingredientMap] inherits
    from [Object.prototype] under that name, which is no value of the
    vocabulary (and no string at all). *)
Theorem resolve_inherited_property :
  resolve [ {| className := "constructor"; probability := lit 0.9 |} ]
  = [VBuiltin "Object"]
  /\ ~ (exists name, In name vocabulary_values
                     /\ VBuiltin "Object" = VString name).
Proof.
  split.
  - vm_compute. reflexivity.
  - intros (name & _ & H). discriminate H.
Qed.

(** C2: a prediction whose confidence is at or below 0.20 contributes
    nothing. Taking it out of the sequence leaves the resolved set as it
    is, its callback changes no set, whatever its label, and every member
    of the resolved set comes from a part of the label of another
    prediction, one whose confidence is strictly above 0.20. *)
Theorem below_threshold_contributes_nothing
    (before after : list prediction) (pred : prediction) :
  js_le (probability pred) confidenceThreshold = true ->
  resolve (before ++ pred :: after) = resolve (before ++ after)
  /\ (forall recognised, resolve_prediction recognised pred = recognised)
  /\ (forall v, In v (resolve (before ++ pred :: after)) ->
        exists other, In other (before ++ after)
          /\ js_gt (probability other) confidenceThreshold = true
          /\ contributes other v).
Proof.
  intros Hle. apply js_le_not_gt in Hle.
  assert (Heq : resolve (before ++ pred :: after) = resolve (before ++ after)).
  { unfold resolve. rewrite !fold_left_app. simpl.
    now rewrite resolve_prediction_below. }
  split; [exact Heq|]. split.
  - intros recognised. now apply resolve_prediction_below.
  - intros v Hv. rewrite Heq in Hv.
    apply resolve_In in Hv as (other & Hin & Hc).
    exists other. split; [assumption|]. split; [|assumption].
    destruct Hc as (part & _ & _ & _ & Hgt). exact Hgt.
Qed.

Lemma below_threshold_contributes_nothing_witness :
  js_le (lit 0.20) confidenceThreshold = true
  /\ resolve ([ {| className := "banana"; probability := lit 0.9 |} ]
              ++ {| className := "lemon"; probability := lit 0.20 |}
              :: [ {| className := "Granny Smith"; probability := lit 0.5 |} ])
     = resolve ([ {| className := "banana"; probability := lit 0.9 |} ]
                ++ [ {| className := "Granny Smith";
                        probability := lit 0.5 |} ]).
Proof.
  split; [vm_compute; reflexivity|].
  apply (below_threshold_contributes_nothing
           [ {| className := "banana"; probability := lit 0.9 |} ]
           [ {| className := "Granny Smith"; probability := lit 0.5 |} ]
           {| className := "lemon"; probability := lit 0.20 |}).
  vm_compute. reflexivity.
Defined.

(** C3: the members of the resolved set are the properties that
    [ingredientMap] has under the trimmed comma-separated parts of the
    labels above the threshold; the label "bagel, roll, bun" splits into
    three parts that are trimmed, and the two scenarios resolve to exactly
    bread, and to exactly banana and apple. *)
Theorem resolve_splits_and_trims :
  (forall predictions v,
      In v (resolve predictions) <->
      exists pred, In pred predictions /\ contributes pred v)
  /\ split_comma "bagel, roll, bun" = ["bagel"; " roll"; " bun"]
  /\ map trim ["bagel"; " roll"; " bun"] = ["bagel"; "roll"; "bun"]
  /\ resolve [ {| className := "bagel, roll, bun"; probability := lit 0.5 |} ]
     = [VString "bread"]
  /\ resolve [ {| className := "banana"; probability := lit 0.9 |};
               {| className := "Granny Smith"; probability := lit 0.5 |};
               {| className := "lemon"; probability := lit 0.1 |} ]
     = [VString "banana"; VString "apple"].
Proof.
  split; [exact resolve_In|].
  repeat split; vm_compute; reflexivity.
Qed.

(** ** Strings, by example *)

Example split_comma_empty : split_comma "" = [""].
Proof. reflexivity. Qed.

Example split_comma_trailing : split_comma "a,,b," = ["a"; ""; "b"; ""].
Proof. reflexivity. Qed.

Example trim_inner_space : trim "  Granny Smith  " = "Granny Smith".
Proof. reflexivity. Qed.

Example trim_blank : trim "   " = "".
Proof. reflexivity. Qed.

Example encodeURIComponent_space : encodeURIComponent "hot dog" = "hot%20dog".
Proof. reflexivity. Qed.

Example recipe_url_hot_dog :
  recipe_url (VString "hot dog")
  = "https://www.themealdb.com/api/json/v1/1/filter.php?i=hot%20dog".
Proof. reflexivity. Qed.

(** ** The recipe fetcher *)

Lemma append_cards (meals : list meal) (s : page) :
  fold_left (fun s' m => recipesContainer_appendChild (make_card m) s')
    meals s
  = set_recipesContainer (recipesContainer s ++ map make_card meals) s.
Proof.
  revert s. induction meals as [|m meals IH]; intros s; simpl.
  - destruct s. unfold set_recipesContainer. simpl.
    now rewrite app_nil_r.
  - rewrite IH. destruct s.
    unfold recipesContainer_appendChild, set_recipesContainer. simpl.
    now rewrite <- app_assoc.
Qed.

(** With matches, one call appends the cards of [meals.slice(0, 3)] and
    does nothing else. *)
Lemma fetchRecipes_data_meals (ingredient : value) (meals : list meal)
    (s : page) :
  fetchRecipes_data ingredient (JsonData (Some meals)) s
  = (set_recipesContainer
       (recipesContainer s ++ map make_card (firstn 3 meals)) s,
     Return).
Proof.
  unfold fetchRecipes_data, fetchRecipes_try_data, catch, slice_0_3.
  now rewrite append_cards.
Qed.

Lemma fetchRecipes_settled_meals (ingredient : value) (meals : list meal)
    (s : page) :
  fetchRecipes_settled ingredient
    (FetchResolves {| ok := true; body := JsonData (Some meals) |}) s
  = (set_recipesContainer
       (recipesContainer s ++ map make_card (firstn 3 meals)) s,
     Return).
Proof.
  unfold fetchRecipes_settled, fetchRecipes_response. simpl.
  apply fetchRecipes_data_meals.
Qed.

(** C4: for a success response with matches, one call appends the cards
    of the first three entries of the service's list, in the service's
    order, and nothing else; they are at most three, and exactly the first
    three of six. *)
Theorem fetch_takes_first_three (ingredient : value) (meals : list meal)
    (s : page) :
  fetchRecipes_settled ingredient
    (FetchResolves {| ok := true; body := JsonData (Some meals) |}) s
  = (set_recipesContainer
       (recipesContainer s ++ map make_card (firstn 3 meals)) s,
     Return)
  /\ length (map make_card (firstn 3 meals)) = Nat.min 3 (length meals)
  /\ length (map make_card (firstn 3 meals)) <= 3
  /\ (forall m1 m2 m3 m4 m5 m6,
        fetchRecipes_settled ingredient
          (FetchResolves
             {| ok := true;
                body := JsonData (Some [m1; m2; m3; m4; m5; m6]) |}) s
        = (set_recipesContainer
             (recipesContainer s
              ++ [make_card m1; make_card m2; make_card m3]) s,
           Return)).
Proof.
  split; [|split; [|split]].
  - apply fetchRecipes_settled_meals.
  - now rewrite length_map, length_firstn.
  - rewrite length_map, length_firstn. lia.
  - intros. now rewrite fetchRecipes_settled_meals.
Qed.

(** No stretch of [fetchRecipes] ends by throwing. *)
Lemma fetchRecipes_never_throws :
  (forall i s e, snd (fetchRecipes_call i s) <> Throw e)
  /\ (forall i r s e, snd (fetchRecipes_response i r s) <> Throw e)
  /\ (forall i b s e, snd (fetchRecipes_data i b s) <> Throw e).
Proof.
  split; [|split].
  - intros i s e. discriminate.
  - intros i [e'|[[] b]] s e; discriminate.
  - intros i [e'|[meals|]] s e; discriminate.
Qed.

(** C9: a success response with the "no results" marker ([meals] is
    [null]) makes one call write the console line "No recipes found for
    <ingredient>." and return normally; no card is appended and nothing is
    thrown. *)
Theorem no_results_yields_nothing (ingredient : value) (s : page) :
  fetchRecipes_settled ingredient
    (FetchResolves {| ok := true; body := JsonData None |}) s
  = (console_write
       (ConsoleLog
          [ArgString ("No recipes found for " ++ to_string ingredient ++ ".")])
       s,
     Return)
  /\ recipesContainer
       (fst (fetchRecipes_settled ingredient
               (FetchResolves {| ok := true; body := JsonData None |}) s))
     = recipesContainer s
  /\ unhandled
       (settle (fetchRecipes_settled ingredient
                  (FetchResolves {| ok := true; body := JsonData None |}) s))
     = unhandled s.
Proof. repeat split. Qed.

(** ** Pending tasks *)

Lemma remove_nth_length {A : Type} (n : nat) (l : list A) :
  n < length l -> length (remove_nth n l) = length l - 1.
Proof.
  intros Hn. unfold remove_nth.
  rewrite length_app, length_firstn, length_skipn. lia.
Qed.

Lemma remove_nth_keeps {A : Type} (n m : nat) (l : list A) (x : A) :
  m <> n -> nth_error l m = Some x -> In x (remove_nth n l).
Proof.
  intros Hmn Hx. unfold remove_nth. apply in_or_app.
  destruct (Nat.ltb m n) eqn:E.
  - left. apply nth_error_In with (n := m).
    now rewrite nth_error_firstn, E.
  - right. apply Nat.ltb_ge in E.
    apply nth_error_In with (n := m - S n).
    rewrite nth_error_skipn. now replace (S n + (m - S n)) with m by lia.
Qed.

Lemma remove_nth_last {A : Type} (l : list A) (x : A) :
  remove_nth (length l) (l ++ [x]) = l.
Proof.
  unfold remove_nth.
  rewrite skipn_all2 by (rewrite length_app; simpl; lia).
  rewrite firstn_app, Nat.sub_diag, firstn_all. simpl.
  now rewrite !app_nil_r.
Qed.

Lemma nth_error_last {A : Type} (l : list A) (x : A) :
  nth_error (l ++ [x]) (length l) = Some x.
Proof.
  rewrite nth_error_app2, Nat.sub_diag; [reflexivity|lia].
Qed.

Lemma set_pending_suspend (l : list task) (t : task) (s : page) :
  set_pending l (suspend t (set_pending l s)) = set_pending l s.
Proof. reflexivity. Qed.

(** The event loop runs one call of [fetchRecipes] in two turns: when the
    response is a success, the turn of [fetch] and then the turn of
    [response.json()] do what [fetchRecipes_settled] does. *)
Lemma run_fetch_success (s : page) (n : nat) (i : value) (url : string)
    (r : response) :
  nth_error (pending s) n = Some (Fetching i url) ->
  ok r = true ->
  run s [Settle n (FetchSettles (FetchResolves r));
         Settle (length (pending s) - 1) JsonSettles]
  = Some (settle (fetchRecipes_settled i (FetchResolves r)
                    (set_pending (remove_nth n (pending s)) s))).
Proof.
  intros Hn Hok.
  assert (Hlt : n < length (pending s)).
  { apply nth_error_Some. congruence. }
  unfold run, step at 1. rewrite Hn. simpl resume.
  unfold fetchRecipes_settled, fetchRecipes_response,
    fetchRecipes_try_response.
  rewrite Hok. simpl negb. cbv iota. simpl catch. simpl settle.
  unfold step.
  replace (pending (suspend (ReadingJson i (body r))
                      (set_pending (remove_nth n (pending s)) s)))
    with (remove_nth n (pending s) ++ [ReadingJson i (body r)])
    by reflexivity.
  rewrite <- (remove_nth_length (pending s) Hlt).
  rewrite nth_error_last, remove_nth_last, set_pending_suspend.
  reflexivity.
Qed.

(** C5: when a recipe request fails (the fetch rejects, the status is not
    a success, or the body does not parse), the turn of the event loop that
    resumes [fetchRecipes] only writes the error to the console and retires
    its own task: no card is appended, no rejection is left unhandled, the
    analyze control is as it was and every other task is still pending.
    Seen as one call, [fetchRecipes] logs the error and returns normally,
    and none of its stretches ends by throwing. *)
Theorem fetch_failure_is_local (s : page) (n : nat) (t : task)
    (o : settlement) (e : exn) :
  nth_error (pending s) n = Some t ->
  task_fails t o = Some e ->
  (exists s',
      step s (Settle n o) = Some s'
      /\ s' = console_write (fetch_error e)
                (set_pending (remove_nth n (pending s)) s)
      /\ recipesContainer s' = recipesContainer s
      /\ unhandled s' = unhandled s
      /\ analyzeBtn_disabled s' = analyzeBtn_disabled s
      /\ analyzeBtn_textContent s' = analyzeBtn_textContent s
      /\ (forall m t', m <> n -> nth_error (pending s) m = Some t' ->
            In t' (pending s')))
  /\ (forall i e' s0,
        fetchRecipes_settled i (FetchRejects e') s0
        = (console_write (fetch_error e') s0, Return))
  /\ (forall i b s0,
        fetchRecipes_settled i (FetchResolves {| ok := false; body := b |}) s0
        = (console_write (fetch_error (JsError "API request failed")) s0,
           Return))
  /\ (forall i e' s0,
        fetchRecipes_settled i
          (FetchResolves {| ok := true; body := JsonRejects e' |}) s0
        = (console_write (fetch_error e') s0, Return))
  /\ (forall i r s0 e', snd (fetchRecipes_response i r s0) <> Throw e')
  /\ (forall i b s0 e', snd (fetchRecipes_data i b s0) <> Throw e').
Proof.
  intros Hn Hfail.
  split; [|repeat split; try apply fetchRecipes_never_throws].
  exists (console_write (fetch_error e)
            (set_pending (remove_nth n (pending s)) s)).
  split; [|repeat split].
  - unfold step. rewrite Hn.
    destruct t as [| | |i url|i [e'|meals]], o as [rm| |rc|[e''|resp]|];
      simpl in Hfail; try discriminate.
    + injection Hfail as ->. reflexivity.
    + destruct resp as [[] b]; simpl in Hfail; [discriminate|].
      injection Hfail as <-. reflexivity.
    + injection Hfail as ->. reflexivity.
  - intros m t' Hm Ht'. simpl. now apply remove_nth_keeps with (m := m).
Qed.

(** ** The orchestrator *)

(** The [forEach] of lines 114-119 shows every ingredient and leaves one
    pending [fetch] for each, in the order of the set. *)
Lemma show_ingredients (recognised : list value) (s : page) :
  fold_left show_ingredient recognised s
  = set_pending
      (pending s ++ map (fun i => Fetching i (recipe_url i)) recognised)
      (set_ingredientList (ingredientList s ++ map to_string recognised) s).
Proof.
  revert s. induction recognised as [|i recognised IH]; intros s; simpl.
  - destruct s. unfold set_pending, set_ingredientList. simpl.
    now rewrite !app_nil_r.
  - rewrite IH. destruct s.
    unfold show_ingredient, fetchRecipes_call, fetchRecipes_try_call,
      ingredientList_appendChild, suspend, set_pending, set_ingredientList.
    simpl. now rewrite <- !app_assoc.
Qed.

Lemma img_onload_resume_nonempty (predictions : list prediction)
    (s : page) :
  resolve predictions <> [] ->
  img_onload_resume (inr predictions) s
  = set_disabled false
      (set_textContent "Analyze Ingredients"
         (fold_left show_ingredient (resolve predictions) s)).
Proof.
  intros Hne. unfold img_onload_resume.
  destruct (resolve predictions); [contradiction|reflexivity].
Qed.

(** C6: when the resolved set is empty, the handler replaces the content
    of the ingredient list by the one placeholder item "No recognizable
    ingredients found.", appends no card, starts no fetch, and re-enables
    the control with its label reset; a whole analysis from a ready page
    with nothing pending ends with the placeholder alone, no card and
    nothing pending. *)
Theorem empty_set_shows_placeholder (predictions : list prediction)
    (s : page) :
  resolve predictions = [] ->
  img_onload_resume (inr predictions) s
  = set_disabled false
      (set_textContent "Analyze Ingredients"
         (set_ingredientList ["No recognizable ingredients found."] s))
  /\ ingredientList (img_onload_resume (inr predictions) s)
     = ["No recognizable ingredients found."]
  /\ recipesContainer (img_onload_resume (inr predictions) s)
     = recipesContainer s
  /\ pending (img_onload_resume (inr predictions) s) = pending s
  /\ analyzeBtn_disabled (img_onload_resume (inr predictions) s) = false
  /\ analyzeBtn_textContent (img_onload_resume (inr predictions) s)
     = "Analyze Ingredients"
  /\ (forall s0,
        model s0 = true -> files0 s0 = true -> pending s0 = [] ->
        exists s1,
          run s0 [Click; Settle 0 ImageLoads;
                  Settle 0 (ClassifySettles (inr predictions))] = Some s1
          /\ ingredientList s1 = ["No recognizable ingredients found."]
          /\ recipesContainer s1 = []
          /\ pending s1 = []
          /\ analyzeBtn_disabled s1 = false
          /\ analyzeBtn_textContent s1 = "Analyze Ingredients").
Proof.
  intros Hempty.
  assert (Heq : img_onload_resume (inr predictions) s
                = set_disabled false
                    (set_textContent "Analyze Ingredients"
                       (set_ingredientList
                          ["No recognizable ingredients found."] s))).
  { unfold img_onload_resume. now rewrite Hempty. }
  split; [exact Heq|]. rewrite Heq. repeat split.
  intros [m f d t il rc al co un pe] Hm Hf Hp. simpl in Hm, Hf, Hp. subst.
  unfold run, step, analyzeBtn_click. simpl.
  unfold img_onload_resume. rewrite Hempty. simpl.
  eexists. split; [reflexivity|]. repeat split.
Qed.

(** C7: with a non-empty resolved set, the handler leaves the control
    enabled with its label reset while every fetch it has started is still
    pending and no card has been appended; a fetch that settles afterwards
    appends its cards to a page whose control is enabled. *)
Theorem control_enabled_before_fetches_settle
    (predictions : list prediction) (s : page) :
  resolve predictions <> [] ->
  analyzeBtn_disabled (img_onload_resume (inr predictions) s) = false
  /\ analyzeBtn_textContent (img_onload_resume (inr predictions) s)
     = "Analyze Ingredients"
  /\ pending (img_onload_resume (inr predictions) s)
     = pending s
       ++ map (fun i => Fetching i (recipe_url i)) (resolve predictions)
  /\ ingredientList (img_onload_resume (inr predictions) s)
     = ingredientList s ++ map to_string (resolve predictions)
  /\ recipesContainer (img_onload_resume (inr predictions) s)
     = recipesContainer s
  /\ (forall k i meals,
        nth_error (resolve predictions) k = Some i ->
        exists s'',
          run (img_onload_resume (inr predictions) s)
            [Settle (length (pending s) + k)
               (FetchSettles
                  (FetchResolves
                     {| ok := true; body := JsonData (Some meals) |}));
             Settle
               (length (pending (img_onload_resume (inr predictions) s)) - 1)
               JsonSettles]
          = Some s''
          /\ recipesContainer s''
             = recipesContainer s ++ map make_card (firstn 3 meals)
          /\ analyzeBtn_disabled s'' = false
          /\ analyzeBtn_textContent s'' = "Analyze Ingredients").
Proof.
  intros Hne.
  rewrite img_onload_resume_nonempty by assumption.
  rewrite show_ingredients.
  repeat split.
  intros k i meals Hk.
  eexists. split.
  - apply run_fetch_success with (url := recipe_url i); [|reflexivity].
    simpl pending.
    rewrite nth_error_app2 by lia.
    replace (length (pending s) + k - length (pending s)) with k by lia.
    rewrite nth_error_map, Hk. reflexivity.
  - rewrite fetchRecipes_settled_meals. repeat split.
Qed.

(** C8: a click while the model is not loaded, or while no file is
    selected, only raises one alert: the control, the console and the
    pending tasks are as they were, so nothing is classified, resolved or
    fetched. *)
Theorem unmet_precondition_only_alerts (s : page) :
  model s = false \/ files0 s = false ->
  exists message,
    analyzeBtn_click s = alert message s
    /\ (model s = false -> message = "Model not loaded yet, please wait.")
    /\ (model s = true -> message = "Please upload an image first.")
    /\ alerts (analyzeBtn_click s) = alerts s ++ [message]
    /\ pending (analyzeBtn_click s) = pending s
    /\ analyzeBtn_disabled (analyzeBtn_click s) = analyzeBtn_disabled s
    /\ analyzeBtn_textContent (analyzeBtn_click s) = analyzeBtn_textContent s
    /\ console (analyzeBtn_click s) = console s
    /\ unhandled (analyzeBtn_click s) = unhandled s.
Proof.
  intros H. unfold analyzeBtn_click.
  destruct (model s) eqn:Hm; simpl.
  - destruct H as [H|H]; [discriminate|]. rewrite H. simpl.
    eexists. split; [reflexivity|]. repeat split. discriminate.
  - eexists. split; [reflexivity|]. repeat split. discriminate.
Qed.

(** C10: the click handler leaves the ingredient list and the recipe cards
    as they were when the model is not loaded or no file is selected, and
    empties both when the two checks pass. *)
Theorem displays_cleared_only_when_accepted (s : page) :
  if model s && files0 s
  then ingredientList (analyzeBtn_click s) = []
       /\ recipesContainer (analyzeBtn_click s) = []
  else ingredientList (analyzeBtn_click s) = ingredientList s
       /\ recipesContainer (analyzeBtn_click s) = recipesContainer s.
Proof.
  unfold analyzeBtn_click.
  destruct (model s), (files0 s); simpl; split; reflexivity.
Qed.

(** ** More on the label resolver *)

Lemma set_add_NoDup (v : value) (s : list value) :
  NoDup s -> NoDup (set_add v s).
Proof.
  intros Hs. unfold set_add.
  destruct (existsb (value_eqb v) s) eqn:E; [assumption|].
  apply NoDup_app; [assumption|repeat constructor; intros []|].
  intros a Ha [->|[]].
  assert (Hex : existsb (value_eqb a) s = true).
  { apply existsb_exists. exists a. split; [assumption|].
    now apply value_eqb_eq. }
  congruence.
Qed.

Lemma set_add_extends (v : value) (s : list value) :
  exists more, set_add v s = s ++ more.
Proof.
  unfold set_add. destruct (existsb (value_eqb v) s).
  - exists []. now rewrite app_nil_r.
  - now exists [v].
Qed.

(** What [set.add] keeps, the whole loop keeps. *)
Lemma resolve_predictions_keep (P : list value -> Prop) :
  (forall v s, P s -> P (set_add v s)) ->
  forall predictions recognised,
    P recognised -> P (fold_left resolve_prediction predictions recognised).
Proof.
  intros Hadd predictions.
  induction predictions as [|pred predictions IH]; intros recognised Hr;
    simpl; [assumption|].
  apply IH. unfold resolve_prediction.
  generalize (split_comma (className pred)). intros parts.
  revert recognised Hr.
  induction parts as [|part parts IHp]; intros recognised Hr; simpl;
    [assumption|].
  apply IHp. unfold resolve_part.
  destruct (get_property (trim part)) as [v|]; [|assumption].
  destruct (truthy v && js_gt (probability pred) confidenceThreshold);
    [now apply Hadd|assumption].
Qed.

Lemma NoDup_app_disjoint {A : Type} (l more : list A) (a : A) :
  NoDup (l ++ more) -> In a more -> ~ In a l.
Proof.
  intros Hnd Ha Hl.
  apply in_split in Ha as (m1 & m2 & ->).
  rewrite app_assoc in Hnd. apply NoDup_remove_2 in Hnd.
  apply Hnd. rewrite <- app_assoc. apply in_or_app. now left.
Qed.

Lemma resolve_predictions_NoDup (predictions : list prediction)
    (recognised : list value) :
  NoDup recognised ->
  NoDup (fold_left resolve_prediction predictions recognised).
Proof.
  apply resolve_predictions_keep with (P := @NoDup value).
  intros v s. apply set_add_NoDup.
Qed.

Lemma resolve_predictions_extend (predictions : list prediction)
    (recognised : list value) :
  exists more,
    fold_left resolve_prediction predictions recognised = recognised ++ more.
Proof.
  apply resolve_predictions_keep
    with (P := fun s => exists more, s = recognised ++ more).
  - intros v s (more & ->).
    destruct (set_add_extends v (recognised ++ more)) as (more' & ->).
    exists (more ++ more'). now rewrite app_assoc.
  - exists []. now rewrite app_nil_r.
Qed.

(** X1: the resolved set holds no value twice, however often the labels
    name it. *)
Theorem resolve_NoDup (predictions : list prediction) :
  NoDup (resolve predictions).
Proof.
  unfold resolve. apply resolve_predictions_NoDup. constructor.
Qed.

(** X2: the order of the predictions decides the order of the resolved
    set only, not its members. *)
Theorem resolve_permutation (predictions reordered : list prediction) :
  Permutation predictions reordered ->
  Permutation (resolve predictions) (resolve reordered).
Proof.
  intros Hperm.
  apply NoDup_Permutation;
    try (apply resolve_predictions_NoDup; constructor).
  intros v. rewrite !resolve_In. split.
  - intros (pred & Hin & Hc). exists pred. split; [|assumption].
    now apply Permutation_in with (l := predictions).
  - intros (pred & Hin & Hc). exists pred. split; [|assumption].
    apply Permutation_in with (l := reordered); [|assumption].
    now apply Permutation_sym.
Qed.

(** X3: more predictions only add to the set: the values resolved from a
    sequence keep their places when predictions follow, and what follows
    them is new. *)
Theorem resolve_app_extends (predictions later : list prediction) :
  exists more,
    resolve (predictions ++ later) = resolve predictions ++ more
    /\ (forall v, In v more -> ~ In v (resolve predictions)).
Proof.
  unfold resolve. rewrite fold_left_app.
  destruct (resolve_predictions_extend later
              (fold_left resolve_prediction predictions []))
    as (more & Hmore).
  exists more. split; [assumption|].
  intros v Hv. apply NoDup_app_disjoint with (more := more); [|assumption].
  rewrite <- Hmore. apply resolve_predictions_NoDup.
  apply resolve_predictions_NoDup. constructor.
Qed.

Lemma property_values_In (v : value) :
  In v (map VString vocabulary_values ++ map snd Object_prototype) ->
  In v property_values.
Proof.
  unfold property_values.
  assert (H : forall l acc,
             In v acc \/ In v l ->
             In v (fold_left (fun acc w => set_add w acc) l acc)).
  { induction l as [|w l IH]; intros acc; simpl.
    - intros [H|[]]. assumption.
    - intros H. apply IH. rewrite set_add_In. intuition. }
  intros Hv. apply H. now right.
Qed.

Lemma get_property_values (key : string) (v : value) :
  get_property key = Some v -> In v property_values.
Proof.
  unfold get_property. intros H. apply property_values_In, in_or_app.
  destruct (assoc key ingredientMap) as [name|] eqn:E.
  - left. injection H as <-. apply in_map.
    now apply assoc_In_snd with (key := key).
  - right. now apply assoc_In_snd with (key := key).
Qed.

Lemma resolve_at_most_36 (predictions : list prediction) :
  length (resolve predictions) <= 36.
Proof.
  change 36 with (length property_values).
  apply NoDup_incl_length.
  - unfold resolve. apply resolve_predictions_NoDup. constructor.
  - intros v Hv.
    apply resolve_In in Hv as (pred & _ & part & _ & Hget & _).
    now apply get_property_values with (key := trim part).
Qed.

(** X4: one analysis resolves at most 36 values, the 24 ingredient names
    and the 12 inherited properties, so it starts at most 36 fetches; a
    sequence that names every key resolves all 36. *)
Theorem resolve_length_bound (predictions : list prediction) :
  length (resolve predictions) <= 36
  /\ length (resolve every_key_predictions) = 36.
Proof.
  split; [apply resolve_at_most_36|].
  vm_compute. reflexivity.
Qed.

Lemma vocabulary_truthy (name : string) :
  In name vocabulary_values -> truthy (VString name) = true.
Proof.
  assert (H : forallb (fun n => truthy (VString n)) vocabulary_values = true)
    by reflexivity.
  rewrite forallb_forall in H. apply H.
Qed.

(** X6: a part of a label that is a key of the vocabulary, white space
    around it aside, puts its ingredient in the resolved set as soon as
    the confidence of its prediction is above 0.20. *)
Theorem resolve_complete (predictions : list prediction)
    (pred : prediction) (part name : string) :
  In pred predictions ->
  js_gt (probability pred) confidenceThreshold = true ->
  In part (split_comma (className pred)) ->
  assoc (trim part) ingredientMap = Some name ->
  In (VString name) (resolve predictions).
Proof.
  intros Hpred Hgt Hpart Hkey.
  apply resolve_In. exists pred. split; [assumption|].
  exists part. split; [assumption|]. split; [|split; [|assumption]].
  - unfold get_property. now rewrite Hkey.
  - apply vocabulary_truthy. now apply assoc_In_snd with (key := trim part).
Qed.

(** ** More on [trim] and [split] *)

Lemma trim_start_blank (s : string) :
  all_white_space s = true -> trim_start s = "".
Proof.
  induction s as [|c rest IH]; simpl; [reflexivity|].
  intros H. apply andb_prop in H as [Hc Hrest]. now rewrite Hc, IH.
Qed.

Lemma trim_end_blank (s : string) :
  all_white_space s = true -> trim_end s = "".
Proof.
  induction s as [|c rest IH]; simpl; [reflexivity|].
  intros H. apply andb_prop in H as [Hc Hrest]. now rewrite IH, Hc.
Qed.

Lemma trim_start_padding (padding s : string) :
  all_white_space padding = true ->
  trim_start (padding ++ s) = trim_start s.
Proof.
  induction padding as [|c rest IH]; simpl; [reflexivity|].
  intros H. apply andb_prop in H as [Hc Hrest]. now rewrite Hc, IH.
Qed.

Lemma trim_end_padding (s padding : string) :
  all_white_space padding = true ->
  trim_end (s ++ padding) = trim_end s.
Proof.
  intros H. induction s as [|c rest IH]; simpl.
  - now apply trim_end_blank.
  - now rewrite IH.
Qed.

Lemma trim_padding_right (s padding : string) :
  all_white_space padding = true ->
  trim (s ++ padding) = trim s.
Proof.
  intros H. unfold trim. induction s as [|c rest IH]; simpl.
  - now rewrite trim_start_blank.
  - destruct (is_white_space c); [exact IH|].
    change (String c (rest ++ padding))
      with (String c rest ++ padding)%string.
    now apply trim_end_padding.
Qed.

(** White space at either end of a string does not show after [trim]. *)
Lemma trim_padding (left right s : string) :
  all_white_space left = true ->
  all_white_space right = true ->
  trim (left ++ s ++ right) = trim s.
Proof.
  intros Hl Hr.
  transitivity (trim (s ++ right)).
  - unfold trim. now rewrite trim_start_padding.
  - now apply trim_padding_right.
Qed.

Lemma trim_start_no_leading (s : string) :
  match trim_start s with
  | EmptyString => True
  | String c _ => is_white_space c = false
  end.
Proof.
  induction s as [|c rest IH]; simpl; [exact I|].
  destruct (is_white_space c) eqn:E; [exact IH|exact E].
Qed.

Lemma trim_end_fixed (s : string) : trim_end (trim_end s) = trim_end s.
Proof.
  induction s as [|c rest IH]; simpl; [reflexivity|].
  destruct (trim_end rest) as [|d kept] eqn:E.
  - destruct (is_white_space c) eqn:Ec; simpl; [reflexivity|].
    now rewrite Ec.
  - simpl. simpl in IH.
    destruct (trim_end kept) as [|d' kept'] eqn:E'.
    + destruct (is_white_space d) eqn:Ed; [discriminate|].
      injection IH as <-. reflexivity.
    + now rewrite IH.
Qed.

Lemma trim_end_keeps_head (s : string) :
  match s with
  | EmptyString => True
  | String c _ =>
      is_white_space c = false ->
      match trim_end s with
      | EmptyString => False
      | String d _ => d = c
      end
  end.
Proof.
  destruct s as [|c rest]; [exact I|]. intros Hc. simpl.
  destruct (trim_end rest); [now rewrite Hc|reflexivity].
Qed.

Lemma trim_idempotent (s : string) : trim (trim s) = trim s.
Proof.
  unfold trim.
  pose proof (trim_start_no_leading s) as Hhead.
  pose proof (trim_end_keeps_head (trim_start s)) as Hkeep.
  destruct (trim_start s) as [|c rest]; [reflexivity|].
  specialize (Hkeep Hhead).
  destruct (trim_end (String c rest)) as [|d kept] eqn:E'; [easy|].
  subst d. simpl trim_start. rewrite Hhead, <- E'.
  apply trim_end_fixed.
Qed.

(** X7: white space added around a part of a label changes neither the
    trimmed part nor what the loop does with it, and trimming twice is
    trimming once. *)
Theorem resolve_part_ignores_padding (pred : prediction)
    (recognised : list value) (left right part : string) :
  all_white_space left = true ->
  all_white_space right = true ->
  trim (left ++ part ++ right) = trim part
  /\ trim (trim part) = trim part
  /\ resolve_part pred recognised (left ++ part ++ right)
     = resolve_part pred recognised part.
Proof.
  intros Hl Hr.
  assert (Hpad : trim (left ++ part ++ right) = trim part)
    by now apply trim_padding.
  split; [exact Hpad|]. split.
  - apply trim_idempotent.
  - unfold resolve_part. now rewrite Hpad.
Qed.

Lemma split_comma_free (s : string) :
  comma_free s = true -> split_comma s = [s].
Proof.
  induction s as [|c rest IH]; simpl; [reflexivity|].
  intros H. apply andb_prop in H as [Hc Hrest].
  apply negb_true_iff in Hc. now rewrite Hc, IH.
Qed.

Lemma split_comma_cons (piece rest : string) :
  comma_free piece = true ->
  split_comma (piece ++ String comma rest) = piece :: split_comma rest.
Proof.
  induction piece as [|c piece IH]; simpl.
  - reflexivity.
  - intros H. apply andb_prop in H as [Hc Hpiece].
    apply negb_true_iff in Hc. now rewrite Hc, IH.
Qed.

Lemma split_comma_pieces_free (s : string) :
  forallb comma_free (split_comma s) = true.
Proof.
  induction s as [|c rest IH]; simpl; [reflexivity|].
  destruct (Ascii.eqb c comma) eqn:E; simpl; [assumption|].
  destruct (split_comma rest) as [|piece pieces]; simpl in *.
  - now rewrite E.
  - now rewrite E.
Qed.

(** X8: [split(',')] and joining with commas undo each other: the pieces
    of a label hold no comma and join back to the label, and a non-empty
    list of pieces without commas is what its join splits into. *)
Theorem split_comma_round_trip :
  (forall s,
      String.concat "," (split_comma s) = s
      /\ forallb comma_free (split_comma s) = true)
  /\ (forall piece pieces,
        forallb comma_free (piece :: pieces) = true ->
        split_comma (String.concat "," (piece :: pieces)) = piece :: pieces).
Proof.
  split.
  - intros s. split; [apply split_comma_join|apply split_comma_pieces_free].
  - intros piece pieces. revert piece.
    induction pieces as [|next pieces IH]; intros piece H.
    + simpl in *. apply split_comma_free.
      now apply andb_prop in H as [H _].
    + change (forallb comma_free (piece :: next :: pieces))
        with (comma_free piece && forallb comma_free (next :: pieces)) in H.
      apply andb_prop in H as [Hpiece Hrest].
      change (String.concat "," (piece :: next :: pieces))
        with (piece ++ String comma (String.concat "," (next :: pieces)))%string.
      rewrite split_comma_cons by assumption.
      now rewrite IH.
Qed.

(** ** More on the recipe fetcher *)

Lemma list_ascii_of_string_app (a b : string) :
  list_ascii_of_string (a ++ b)
  = list_ascii_of_string a ++ list_ascii_of_string b.
Proof.
  induction a as [|c a IH]; simpl; [reflexivity|]. now rewrite IH.
Qed.

Lemma encode_unit_escaped (c : ascii) :
  forallb escaped_unit
    (list_ascii_of_string
       (if uri_unreserved c then String c EmptyString
        else if (N_of_ascii c <? 128)%N then percent (N_of_ascii c)
        else (percent (192 + N_of_ascii c / 64)
              ++ percent (128 + N_of_ascii c mod 64))%string))
  = true.
Proof.
  destruct c as [[] [] [] [] [] [] [] []]; vm_compute; reflexivity.
Qed.

Lemma encodeURIComponent_escaped (s : string) :
  forallb escaped_unit (list_ascii_of_string (encodeURIComponent s)) = true.
Proof.
  induction s as [|c rest IH]; [reflexivity|].
  cbn [encodeURIComponent].
  rewrite list_ascii_of_string_app, forallb_app, IH.
  now rewrite encode_unit_escaped.
Qed.

(** X9: [encodeURIComponent] puts out unreserved code units and percent
    signs only, so the ingredient in the URL of a request holds none of
    the delimiters of a query and no space: the parameter [i] is the whole
    query. *)
Theorem encodeURIComponent_safe (s : string) (c : ascii) :
  In c (list_ascii_of_string (encodeURIComponent s)) ->
  escaped_unit c = true /\ ~ In c query_delimiters.
Proof.
  intros Hc.
  pose proof (encodeURIComponent_escaped s) as H.
  rewrite forallb_forall in H. specialize (H c Hc).
  split; [exact H|].
  intros Hd. unfold query_delimiters in Hd. simpl in Hd.
  repeat (destruct Hd as [<-|Hd]; [discriminate H|]).
  exact Hd.
Qed.


(** ** The event loop *)

Lemma remove_nth_split {A : Type} (n : nat) (l : list A) (x : A) :
  nth_error l n = Some x ->
  exists before after,
    l = before ++ x :: after /\ remove_nth n l = before ++ after.
Proof.
  intros H. apply nth_error_split in H as (before & after & -> & <-).
  exists before, after. split; [reflexivity|].
  unfold remove_nth.
  rewrite skipn_app, skipn_all2 by lia.
  replace (S (length before) - length before) with 1 by lia.
  rewrite firstn_app, Nat.sub_diag, firstn_all. simpl.
  now rewrite app_nil_r.
Qed.

Lemma remove_nth_In {A : Type} (n : nat) (l : list A) (x : A) :
  In x (remove_nth n l) -> In x l.
Proof.
  unfold remove_nth. intros H. apply in_app_or in H as [H|H].
  - rewrite <- (firstn_skipn n l). apply in_or_app. now left.
  - rewrite <- (firstn_skipn (S n) l). apply in_or_app. now right.
Qed.

(** A turn that settles a task retires that task, and what it adds to the
    pending tasks and to the cards is what [spawned] allows. *)
Lemma settle_shape (s s' : page) (n : nat) (o : settlement) (t : task) :
  nth_error (pending s) n = Some t ->
  step s (Settle n o) = Some s' ->
  exists new cards,
    pending s' = remove_nth n (pending s) ++ new
    /\ recipesContainer s' = recipesContainer s ++ cards
    /\ spawned t new cards.
Proof.
  intros Hn Hstep. unfold step in Hstep. rewrite Hn in Hstep.
  destruct t as [| | |i url|i b], o as [r| |r|r|];
    simpl in Hstep; try discriminate; injection Hstep as <-.
  - exists [], []. destruct r; simpl; rewrite !app_nil_r; repeat split.
  - exists [Classifying], []. simpl. rewrite app_nil_r. repeat split.
  - destruct r as [e|predictions].
    + exists [], []. simpl. rewrite !app_nil_r. repeat split.
      exists []. split; [simpl; lia|reflexivity].
    + unfold img_onload_resume.
      pose proof (resolve_at_most_36 predictions) as Hlen.
      destruct (resolve predictions) as [|i recognised].
      * exists [], []. simpl. rewrite !app_nil_r. repeat split.
        exists []. split; [simpl; lia|reflexivity].
      * cbv zeta. cbn [length Nat.eqb]. rewrite show_ingredients.
        exists (map (fun i => Fetching i (recipe_url i)) (i :: recognised)),
          [].
        simpl. rewrite app_nil_r. repeat split.
        exists (i :: recognised). split; [exact Hlen|reflexivity].
  - destruct r as [e|[[] b]].
    + exists [], []. simpl. rewrite !app_nil_r. repeat split. now left.
    + exists [ReadingJson i b], []. simpl. rewrite app_nil_r.
      repeat split. right. now exists b.
    + exists [], []. simpl. rewrite !app_nil_r. repeat split. now left.
  - destruct b as [e|[meals|]].
    + exists [], []. simpl. rewrite !app_nil_r. repeat split. lia.
    + assert (Hlen : length (map make_card (firstn 3 meals)) <= 3)
        by (rewrite length_map, length_firstn; lia).
      rewrite fetchRecipes_data_meals.
      remember (map make_card (firstn 3 meals)) as cards.
      exists [], cards. simpl. rewrite app_nil_r.
      repeat split. exact Hlen.
    + exists [], []. simpl. rewrite !app_nil_r. repeat split. lia.
Qed.

(** Every turn that settles a task, written out: the handlers of the
    script compose to the setters of [settled_page]. *)
Lemma resume_settled_page (t : task) (o : settlement) (s1 : page) :
  resume t o s1 = settled_page t o s1.
Proof.
  destruct t as [| | |i url|i [e|[meals|]]],
    o as [[e'|]| |[e'|predictions]|[e'|[[] b]]|];
    try reflexivity.
  - simpl. unfold img_onload_resume.
    destruct (resolve predictions) as [|i recognised] eqn:E;
      [reflexivity|].
    cbv zeta. cbn [length Nat.eqb]. now rewrite show_ingredients.
  - cbn [resume settled_page]. now rewrite fetchRecipes_data_meals.
Qed.

Lemma step_settle (s s' : page) (n : nat) (o : settlement) :
  step s (Settle n o) = Some s' ->
  exists t,
    nth_error (pending s) n = Some t
    /\ settled_page t o (set_pending (remove_nth n (pending s)) s) = Some s'.
Proof.
  unfold step. destruct (nth_error (pending s) n) as [t|]; [|discriminate].
  intros H. exists t. split; [reflexivity|].
  now rewrite <- resume_settled_page.
Qed.

Ltac settle_split Hstep o :=
  let t := fresh "t" in
  let Hn := fresh "Hn" in
  let Hs := fresh "Hs" in
  apply step_settle in Hstep as (t & Hn & Hs);
  destruct t as [| | |? ?|? [?|[?|]]],
    o as [[?|]| |[?|?]|[?|[[] ?]]|];
  cbn [settled_page] in Hs; try discriminate Hs; injection Hs as <-.

(** Projections of pages built with the setters, and nothing else. *)
Ltac page_simpl :=
  cbn [model files0 analyzeBtn_disabled analyzeBtn_textContent
       ingredientList recipesContainer alerts console unhandled pending
       set_model set_files0 set_disabled set_textContent
       set_ingredientList set_recipesContainer set_pending alert
       console_write report_unhandled suspend
       ingredientList_appendChild recipesContainer_appendChild].

Lemma step_label (s s' : page) (e : event) :
  label_consistent s -> step s e = Some s' -> label_consistent s'.
Proof.
  intros H Hstep. destruct e as [|file| |n o].
  - injection Hstep as <-. left. simpl. auto.
  - injection Hstep as <-. exact H.
  - injection Hstep as <-. unfold analyzeBtn_click.
    destruct (model s); simpl; [|exact H].
    destruct (files0 s); simpl; [|exact H].
    left. simpl. auto.
  - settle_split Hstep o; try exact H; try (right; simpl; now auto).
Qed.

(** X11: the label of the analyze control always tells its state. Once
    the control is disabled with "Loading model..." or "Analyzing...", or
    enabled with "Analyze Ingredients", no turn of the event loop breaks
    that. *)
Theorem label_stays_consistent (es : list event) (s s' : page) :
  label_consistent s -> run s es = Some s' -> label_consistent s'.
Proof.
  revert s. induction es as [|e es IH]; intros s H Hrun; simpl in Hrun.
  - now injection Hrun as <-.
  - destruct (step s e) as [s1|] eqn:E; [|discriminate].
    apply IH with (s := s1); [|assumption].
    now apply step_label with (s := s) (e := e).
Qed.

Lemma step_model_when_needed (s s' : page) (e : event) :
  model_when_needed s -> step s e = Some s' -> model_when_needed s'.
Proof.
  intros (Hb & Hi & Hc) Hstep. destruct e as [|file| |n o].
  - injection Hstep as <-. unfold model_when_needed. simpl.
    repeat split; [discriminate| |]; intros H;
      apply in_app_or in H as [H|[H|[]]]; auto; discriminate.
  - injection Hstep as <-. unfold model_when_needed. simpl.
    repeat split; assumption.
  - injection Hstep as <-. unfold analyzeBtn_click, model_when_needed.
    destruct (model s) eqn:Hm; simpl;
      [|repeat split; rewrite Hm; assumption].
    destruct (files0 s); simpl; repeat split; auto.
  - settle_split Hstep o; unfold model_when_needed;
      assert (Hrm : forall t, In t (remove_nth n (pending s)) ->
                              In t (pending s))
        by (intros t; apply remove_nth_In);
      apply nth_error_In in Hn;
      try (destruct (ok r));
      try (destruct (resolve l)); page_simpl;
      repeat split; intros H; auto;
      try (apply in_app_or in H as [H|H]); auto;
      try (apply in_map_iff in H as (? & ? & _));
      try (simpl in H; destruct H as [H|H]); try discriminate; auto.
Qed.

(** X12: on a page that started by loading the model, the analyze
    control is enabled only once the model is there, whatever the turns
    since the page load: a click that the control lets through never
    meets a missing model. *)
Theorem enabled_control_has_model (es : list event) (s0 s : page) :
  pending s0 = [] ->
  run s0 (DOMContentLoaded :: es) = Some s ->
  analyzeBtn_disabled s = false ->
  model s = true
  /\ analyzeBtn_click s <> alert "Model not loaded yet, please wait." s.
Proof.
  intros Hp Hrun Henabled.
  assert (Hloaded : model s = true).
  { simpl in Hrun.
    assert (Hinit : model_when_needed (loadModel_call s0)).
    { unfold model_when_needed. simpl. rewrite Hp. simpl.
      repeat split; [discriminate| |]; intros [H|[]]; discriminate. }
    revert Hrun Hinit. generalize (loadModel_call s0). clear Hp s0.
    induction es as [|e es IH]; intros s1 Hrun Hinv; simpl in Hrun.
    - injection Hrun as <-. destruct Hinv as (Hb & _). now apply Hb.
    - destruct (step s1 e) as [s2|] eqn:E; [|discriminate].
      apply (IH s2); [assumption|].
      now apply step_model_when_needed with (s := s1) (e := e). }
  split; [assumption|].
  unfold analyzeBtn_click. rewrite Hloaded. simpl.
  destruct (files0 s); simpl.
  - intros H. apply (f_equal analyzeBtn_disabled) in H. simpl in H.
    congruence.
  - intros H. apply (f_equal alerts) in H. simpl in H.
    apply app_inv_head in H. discriminate.
Qed.

(** X13: only a click raises an alert, and only a rejected
    classification leaves a rejection unhandled: every other turn of the
    event loop keeps both lists as they are. *)
Theorem quiet_turns (s s' : page) (e : event) :
  step s e = Some s' ->
  (alerts s' = alerts s
   \/ (e = Click /\ exists message, alerts s' = alerts s ++ [message]))
  /\ (unhandled s' = unhandled s
      \/ exists n err,
           e = Settle n (ClassifySettles (inl err))
           /\ unhandled s' = unhandled s ++ [err]).
Proof.
  intros Hstep. destruct e as [|file| |n o].
  - injection Hstep as <-. split; now left.
  - injection Hstep as <-. split; now left.
  - injection Hstep as <-. unfold analyzeBtn_click.
    destruct (model s); simpl.
    + destruct (files0 s); simpl; split; try (now left).
      right. split; [reflexivity|]. now eexists.
    + split; [|now left]. right. split; [reflexivity|]. now eexists.
  - settle_split Hstep o;
      try (destruct (ok r)); try (destruct (resolve l));
      split; try (now left).
    right. now exists n, e.
Qed.

Lemma nth_error_appended {A : Type} (l : list A) (x : A) (n : nat) :
  n = length l -> nth_error (l ++ [x]) n = Some x.
Proof. intros ->. apply nth_error_last. Qed.

Lemma step_last (s : page) (t : task) (o : settlement) (l : list task) :
  pending s = l ++ [t] ->
  step s (Settle (length l) o) = resume t o (set_pending l s).
Proof.
  intros Hp. unfold step. rewrite Hp, nth_error_last, remove_nth_last.
  reflexivity.
Qed.

Lemma run_cons (s s1 : page) (e : event) (es : list event) :
  step s e = Some s1 -> run s (e :: es) = run s1 es.
Proof. intros H. simpl. now rewrite H. Qed.

Lemma run_settle_last (s : page) (t : task) (o : settlement)
    (l : list task) (es : list event) (s1 : page) :
  pending s = l ++ [t] ->
  resume t o (set_pending l s) = Some s1 ->
  run s (Settle (length l) o :: es) = run s1 es.
Proof.
  intros Hp Hr. apply run_cons. now rewrite step_last with (t := t).
Qed.

(** X14: when the classification of an accepted click is rejected, the
    rejection stays unhandled and the page shows nothing for it: no
    alert, no ingredient, no card, and the control stays disabled under
    the label "Analyzing...". *)
Theorem classification_failure_blocks_control (s : page) (err : exn) :
  model s = true ->
  files0 s = true ->
  exists s',
    run s [Click;
           Settle (length (pending s)) ImageLoads;
           Settle (length (pending s)) (ClassifySettles (inl err))]
    = Some s'
    /\ analyzeBtn_disabled s' = true
    /\ analyzeBtn_textContent s' = "Analyzing..."
    /\ unhandled s' = unhandled s ++ [err]
    /\ alerts s' = alerts s
    /\ ingredientList s' = []
    /\ recipesContainer s' = []
    /\ pending s' = pending s.
Proof.
  intros Hm Hf. eexists. split.
  - rewrite run_cons with (s1 := analyzeBtn_click s) by reflexivity.
    unfold analyzeBtn_click. rewrite Hm, Hf. cbn [negb].
    erewrite run_settle_last with (t := ImageLoading) (l := pending s);
      [|reflexivity|reflexivity].
    erewrite run_settle_last with (t := Classifying) (l := pending s);
      [|reflexivity|reflexivity].
    reflexivity.
  - repeat split.
Qed.

(** X15: the page load disables the control under "Loading model...".
    When the model arrives the control is enabled under "Analyze
    Ingredients" and the console says so; when loading fails the error is
    logged and the control stays disabled under "Loading model...", with
    no model. *)
Theorem loadModel_outcomes (s : page) (r : option exn) :
  exists s',
    run s [DOMContentLoaded; Settle (length (pending s)) (ModelSettles r)]
    = Some s'
    /\ pending s' = pending s
    /\ alerts s' = alerts s
    /\ match r with
       | None =>
           model s' = true
           /\ analyzeBtn_disabled s' = false
           /\ analyzeBtn_textContent s' = "Analyze Ingredients"
           /\ console s' = console s ++ [ConsoleLog [ArgString "Model loaded"]]
       | Some e =>
           model s' = model s
           /\ analyzeBtn_disabled s' = true
           /\ analyzeBtn_textContent s' = "Loading model..."
           /\ console s' = console s ++ [ConsoleError [ArgError e]]
       end.
Proof.
  eexists. split.
  - rewrite run_cons with (s1 := loadModel_call s) by reflexivity.
    erewrite run_settle_last with (t := ModelLoading) (l := pending s);
      [|reflexivity|reflexivity].
    reflexivity.
  - destruct r; repeat split.
Qed.

(** X16: a click does not cancel the fetches of the analysis before it.
    A fetch that was pending at the click still appends its cards, to the
    container that the click has just emptied, while the control is
    disabled for the new analysis. *)
Theorem stale_fetch_survives_click (s : page) (n : nat) (i : value)
    (url : string) (meals : list meal) :
  model s = true ->
  files0 s = true ->
  nth_error (pending s) n = Some (Fetching i url) ->
  exists s',
    run s [Click;
           Settle n
             (FetchSettles
                (FetchResolves
                   {| ok := true; body := JsonData (Some meals) |}));
           Settle (length (pending s)) JsonSettles]
    = Some s'
    /\ recipesContainer s' = map make_card (firstn 3 meals)
    /\ ingredientList s' = []
    /\ analyzeBtn_disabled s' = true
    /\ analyzeBtn_textContent s' = "Analyzing...".
Proof.
  intros Hm Hf Hn.
  assert (Hlt : n < length (pending s)).
  { apply nth_error_Some. congruence. }
  eexists. split.
  - rewrite run_cons with (s1 := analyzeBtn_click s) by reflexivity.
    unfold analyzeBtn_click. rewrite Hm, Hf. cbn [negb].
    match goal with
    | |- run ?s1 _ = _ =>
        replace (length (pending s)) with (length (pending s1) - 1)
          by (page_simpl; rewrite length_app; simpl; lia);
        apply run_fetch_success with (url := url); [|reflexivity]
    end.
    page_simpl. rewrite nth_error_app1 by assumption. exact Hn.
  - rewrite fetchRecipes_settled_meals. repeat split.
Qed.

Lemma pending_turns_app (l l' : list task) :
  pending_turns (l ++ l') = pending_turns l + pending_turns l'.
Proof. unfold pending_turns. now rewrite map_app, list_sum_app. Qed.

Lemma pending_cards_app (l l' : list task) :
  pending_cards (l ++ l') = pending_cards l + pending_cards l'.
Proof. unfold pending_cards. now rewrite map_app, list_sum_app. Qed.

Lemma pending_turns_fetches (recognised : list value) :
  pending_turns (map (fun i => Fetching i (recipe_url i)) recognised)
  = 2 * length recognised.
Proof.
  induction recognised as [|i recognised IH]; [reflexivity|].
  change (pending_turns
            (map (fun i => Fetching i (recipe_url i)) (i :: recognised)))
    with (2 + pending_turns
                (map (fun i => Fetching i (recipe_url i)) recognised)).
  rewrite IH. simpl. lia.
Qed.

Lemma pending_cards_fetches (recognised : list value) :
  pending_cards (map (fun i => Fetching i (recipe_url i)) recognised)
  = 3 * length recognised.
Proof.
  induction recognised as [|i recognised IH]; [reflexivity|].
  change (pending_cards
            (map (fun i => Fetching i (recipe_url i)) (i :: recognised)))
    with (3 + pending_cards
                (map (fun i => Fetching i (recipe_url i)) recognised)).
  rewrite IH. simpl. lia.
Qed.

(** What a settled task leaves behind weighs less than the task. *)
Lemma spawned_weighs_less (t : task) (new : list task)
    (cards : list recipe_card) :
  spawned t new cards ->
  pending_turns new < task_turns t
  /\ length cards + pending_cards new <= task_cards t.
Proof.
  destruct t as [| | |i url|i b]; cbn [spawned task_turns task_cards].
  - intros (-> & ->). unfold pending_turns, pending_cards.
    cbn [map list_sum fold_right task_turns task_cards length]. lia.
  - intros (-> & ->). unfold pending_turns, pending_cards.
    cbn [map list_sum fold_right task_turns task_cards length]. lia.
  - intros (-> & recognised & Hlen & ->).
    rewrite pending_turns_fetches, pending_cards_fetches.
    cbn [length]. lia.
  - intros (-> & [->|(b & ->)]); unfold pending_turns, pending_cards;
      cbn [map list_sum fold_right task_turns task_cards length]; lia.
  - intros (-> & Hlen). unfold pending_turns, pending_cards.
    cbn [map list_sum fold_right]. lia.
Qed.

Lemma settle_weighs_less (s s' : page) (n : nat) (o : settlement) :
  step s (Settle n o) = Some s' ->
  pending_turns (pending s') < pending_turns (pending s)
  /\ length (recipesContainer s') + pending_cards (pending s')
     <= length (recipesContainer s) + pending_cards (pending s).
Proof.
  intros Hstep.
  destruct (nth_error (pending s) n) as [t|] eqn:Hn;
    [|unfold step in Hstep; rewrite Hn in Hstep; discriminate].
  destruct (settle_shape s n o Hn Hstep)
    as (new & cards & Hp & Hc & Hspawn).
  apply spawned_weighs_less in Hspawn as (Hturns & Hcards).
  apply remove_nth_split in Hn as (before & after & Hsplit & Hrm).
  rewrite Hp, Hc, Hrm, Hsplit.
  rewrite !pending_turns_app, !pending_cards_app, length_app.
  change (pending_turns (t :: after))
    with (task_turns t + pending_turns after).
  change (pending_cards (t :: after))
    with (task_cards t + pending_cards after).
  lia.
Qed.

(** X17: without further events from the user, the page comes to rest:
    the turns that settle pending tasks are at most [pending_turns] of
    the pending tasks (one for a model load or a body, two for a fetch,
    73 for a classification, 74 for an image load). *)
Theorem settling_turns_bounded (es : list event) (s s' : page) :
  forallb is_settle es = true ->
  run s es = Some s' ->
  length es + pending_turns (pending s') <= pending_turns (pending s).
Proof.
  revert s. induction es as [|e es IH]; intros s Hall Hrun;
    simpl in Hall, Hrun.
  - injection Hrun as <-. simpl. lia.
  - apply andb_prop in Hall as [He Hes].
    destruct (step s e) as [s1|] eqn:E; [|discriminate].
    specialize (IH s1 Hes Hrun).
    destruct e as [|file| |n o]; try discriminate He.
    apply settle_weighs_less in E as [E _]. simpl. lia.
Qed.

Lemma turn_cards (s s' : page) (e : event) :
  is_click e = false ->
  step s e = Some s' ->
  length (recipesContainer s') + pending_cards (pending s')
  <= length (recipesContainer s) + pending_cards (pending s).
Proof.
  intros He Hstep. destruct e as [|file| |n o]; try discriminate He.
  - injection Hstep as <-. unfold loadModel_call. page_simpl.
    rewrite pending_cards_app.
    change (pending_cards [ModelLoading]) with 0. lia.
  - injection Hstep as <-. page_simpl. lia.
  - now apply settle_weighs_less in Hstep as [_ H].
Qed.

Lemma run_cards (es : list event) (s s' : page) :
  forallb (fun e => negb (is_click e)) es = true ->
  run s es = Some s' ->
  length (recipesContainer s') + pending_cards (pending s')
  <= length (recipesContainer s) + pending_cards (pending s).
Proof.
  revert s. induction es as [|e es IH]; intros s Hall Hrun;
    simpl in Hall, Hrun.
  - injection Hrun as <-. lia.
  - apply andb_prop in Hall as [He Hes]. apply negb_true_iff in He.
    destruct (step s e) as [s1|] eqn:E; [|discriminate].
    specialize (IH s1 Hes Hrun).
    apply turn_cards in E; [lia|assumption].
Qed.

(** X18: between an accepted click and the next click the page never
    shows more than 108 cards, three for each of at most 36 ingredients,
    beside the cards of the fetches that were still pending at the
    click. *)
Theorem cards_after_click_bounded (es : list event) (s s' : page) :
  model s = true ->
  files0 s = true ->
  forallb (fun e => negb (is_click e)) es = true ->
  run s (Click :: es) = Some s' ->
  length (recipesContainer s') <= 108 + pending_cards (pending s).
Proof.
  intros Hm Hf Hall Hrun.
  rewrite run_cons with (s1 := analyzeBtn_click s) in Hrun by reflexivity.
  apply run_cards in Hrun; [|assumption].
  unfold analyzeBtn_click in Hrun. rewrite Hm, Hf in Hrun.
  cbn [negb] in Hrun. revert Hrun. page_simpl.
  rewrite pending_cards_app.
  change (pending_cards [ImageLoading]) with 108.
  cbn [length]. lia.
Qed.

(** X19: no entry of the vocabulary is dead. A label that is just the
    key of an entry, with a confidence above 0.20, resolves to exactly
    the entry's name: no key is shadowed by another entry or by an
    inherited property, and none is out of reach of [split] and
    [trim]. *)
Theorem vocabulary_entries_reachable (key name : string) (p : number) :
  In (key, name) ingredientMap ->
  js_gt p confidenceThreshold = true ->
  resolve [ {| className := key; probability := p |} ] = [VString name].
Proof.
  intros Hin Hgt.
  assert (Hall : forallb reachable_entry ingredientMap = true)
    by (vm_compute; reflexivity).
  rewrite forallb_forall in Hall. specialize (Hall _ Hin).
  unfold reachable_entry in Hall.
  apply andb_prop in Hall as [Hall Hget].
  apply andb_prop in Hall as [Hfree Htrim].
  apply String.eqb_eq in Htrim.
  unfold resolve, resolve_prediction. cbn [fold_left className].
  rewrite split_comma_free by assumption.
  cbn [fold_left]. unfold resolve_part. cbn [probability].
  rewrite Htrim.
  destruct (get_property key) as [v|]; [|discriminate].
  apply andb_prop in Hget as [Hv Htruthy].
  apply value_eqb_eq in Hv. subst v.
  now rewrite Htruthy, Hgt.
Qed.

Lemma step_model (s s' : page) (e : event) :
  model s = true -> step s e = Some s' -> model s' = true.
Proof.
  intros H Hstep. destruct e as [|file| |n o].
  - injection Hstep as <-. exact H.
  - injection Hstep as <-. exact H.
  - injection Hstep as <-. unfold analyzeBtn_click.
    destruct (negb (model s)); [exact H|].
    destruct (negb (files0 s)); exact H.
  - settle_split Hstep o;
      try (destruct (ok r)); try (destruct (resolve l));
      first [exact H|reflexivity].
Qed.

(** X20: the script never drops the model: once it is loaded it stays
    loaded through every turn of the event loop, a failed reload
    included. *)
Theorem model_stays_loaded (es : list event) (s s' : page) :
  model s = true -> run s es = Some s' -> model s' = true.
Proof.
  revert s. induction es as [|e es IH]; intros s H Hrun; simpl in Hrun.
  - now injection Hrun as <-.
  - destruct (step s e) as [s1|] eqn:E; [|discriminate].
    apply (IH s1); [|assumption].
    now apply step_model with (s := s) (e := e).
Qed.

(** X21: one analysis, from the click to the end of the handler of the
    classification: with a non-empty resolved set the ingredient list is
    exactly the resolved values in the order of the set, one fetch is
    pending for each of them with its URL, behind the tasks that were
    pending before, no card is shown yet and the control is enabled. *)
Theorem analysis_shows_resolved (s : page)
    (predictions : list prediction) :
  model s = true ->
  files0 s = true ->
  resolve predictions <> [] ->
  exists s',
    run s [Click;
           Settle (length (pending s)) ImageLoads;
           Settle (length (pending s)) (ClassifySettles (inr predictions))]
    = Some s'
    /\ ingredientList s' = map to_string (resolve predictions)
    /\ pending s'
       = pending s
         ++ map (fun i => Fetching i (recipe_url i)) (resolve predictions)
    /\ recipesContainer s' = []
    /\ analyzeBtn_disabled s' = false
    /\ analyzeBtn_textContent s' = "Analyze Ingredients"
    /\ alerts s' = alerts s
    /\ unhandled s' = unhandled s.
Proof.
  intros Hm Hf Hne. eexists. split.
  - rewrite run_cons with (s1 := analyzeBtn_click s) by reflexivity.
    unfold analyzeBtn_click. rewrite Hm, Hf. cbn [negb].
    erewrite run_settle_last with (t := ImageLoading) (l := pending s);
      [|reflexivity|reflexivity].
    erewrite run_settle_last with (t := Classifying) (l := pending s);
      [|reflexivity|reflexivity].
    reflexivity.
  - rewrite img_onload_resume_nonempty by assumption.
    rewrite show_ingredients. repeat split.
Qed.

End Script.

(** * Worked instances *)

(** One analysis of the scenario's predictions: the fetch for apple
    settles first and succeeds, the fetch for banana is rejected. *)
Example analysis_run :
  run v8_builtin_source ready_page
    [ Click;
      Settle 0 ImageLoads;
      Settle 0 (ClassifySettles (inr fruit_predictions));
      Settle 1 (FetchSettles
                  (FetchResolves
                     {| ok := true; body := JsonData (Some apple_meals) |}));
      Settle 0 (FetchSettles (FetchRejects (JsError "Failed to fetch")));
      Settle 0 JsonSettles ]
  = Some
      {| model := true; files0 := true;
         analyzeBtn_disabled := false;
         analyzeBtn_textContent := "Analyze Ingredients";
         ingredientList := ["banana"; "apple"];
         recipesContainer := map make_card apple_meals;
         alerts := [];
         console := [fetch_error (JsError "Failed to fetch")];
         unhandled := [];
         pending := [] |}.
Proof. vm_compute. reflexivity. Qed.

Lemma fetch_failure_is_local_witness :
  nth_error
    (pending (img_onload_resume v8_builtin_source (inr fruit_predictions)
                ready_page)) 0
  = Some (Fetching (VString "banana")
            (recipe_url v8_builtin_source (VString "banana")))
  /\ task_fails
       (Fetching (VString "banana")
          (recipe_url v8_builtin_source (VString "banana")))
       (FetchSettles (FetchRejects (JsError "Failed to fetch")))
     = Some (JsError "Failed to fetch")
  /\ exists s',
       step v8_builtin_source
         (img_onload_resume v8_builtin_source (inr fruit_predictions)
            ready_page)
         (Settle 0 (FetchSettles (FetchRejects (JsError "Failed to fetch"))))
       = Some s'
       /\ recipesContainer s' = []
       /\ unhandled s' = []
       /\ In (Fetching (VString "apple")
                (recipe_url v8_builtin_source (VString "apple")))
            (pending s').
Proof.
  split; [vm_compute; reflexivity|]. split; [reflexivity|].
  destruct (@fetch_failure_is_local v8_builtin_source
              (img_onload_resume v8_builtin_source (inr fruit_predictions)
                 ready_page)
              0
              (Fetching (VString "banana")
                 (recipe_url v8_builtin_source (VString "banana")))
              (FetchSettles (FetchRejects (JsError "Failed to fetch")))
              (JsError "Failed to fetch"))
    as [(s' & Hstep & _ & Hcards & Hun & _ & _ & Hothers) _].
  - vm_compute. reflexivity.
  - reflexivity.
  - exists s'. split; [exact Hstep|]. split; [exact Hcards|].
    split; [exact Hun|].
    apply (Hothers 1); [discriminate|vm_compute; reflexivity].
Defined.

Lemma empty_set_shows_placeholder_witness :
  resolve [ {| className := "lemon"; probability := lit 0.1 |} ] = []
  /\ ingredientList
       (img_onload_resume v8_builtin_source
          (inr [ {| className := "lemon"; probability := lit 0.1 |} ])
          ready_page)
     = ["No recognizable ingredients found."].
Proof.
  split; [vm_compute; reflexivity|].
  apply (@empty_set_shows_placeholder v8_builtin_source
           [ {| className := "lemon"; probability := lit 0.1 |} ]
           ready_page).
  vm_compute. reflexivity.
Defined.

Lemma control_enabled_before_fetches_settle_witness :
  resolve fruit_predictions <> []
  /\ analyzeBtn_disabled
       (img_onload_resume v8_builtin_source (inr fruit_predictions)
          ready_page)
     = false.
Proof.
  split; [vm_compute; discriminate|].
  apply (@control_enabled_before_fetches_settle v8_builtin_source
           fruit_predictions ready_page).
  vm_compute. discriminate.
Defined.

Lemma unmet_precondition_only_alerts_witness :
  (model (set_model false ready_page) = false
   \/ files0 (set_model false ready_page) = false)
  /\ exists message,
       analyzeBtn_click (set_model false ready_page)
       = alert message (set_model false ready_page).
Proof.
  split; [left; reflexivity|].
  destruct (@unmet_precondition_only_alerts (set_model false ready_page))
    as (message & Hclick & _).
  - left. reflexivity.
  - exists message. exact Hclick.
Defined.

Lemma resolve_permutation_witness :
  Permutation
    [ {| className := "banana"; probability := lit 0.9 |};
      {| className := "Granny Smith"; probability := lit 0.5 |} ]
    [ {| className := "Granny Smith"; probability := lit 0.5 |};
      {| className := "banana"; probability := lit 0.9 |} ]
  /\ Permutation
       (resolve
          [ {| className := "banana"; probability := lit 0.9 |};
            {| className := "Granny Smith"; probability := lit 0.5 |} ])
       (resolve
          [ {| className := "Granny Smith"; probability := lit 0.5 |};
            {| className := "banana"; probability := lit 0.9 |} ]).
Proof.
  split; [apply perm_swap|].
  apply (@resolve_permutation
           [ {| className := "banana"; probability := lit 0.9 |};
             {| className := "Granny Smith"; probability := lit 0.5 |} ]
           [ {| className := "Granny Smith"; probability := lit 0.5 |};
             {| className := "banana"; probability := lit 0.9 |} ]).
  apply perm_swap.
Defined.

Lemma resolve_own_properties_witness :
  (forall pred part,
      In pred fruit_predictions -> In part (split_comma (className pred)) ->
      assoc (trim part) Object_prototype = None)
  /\ exists name,
       VString "apple" = VString name /\ In name vocabulary_values.
Proof.
  assert (Hown : forall pred part,
             In pred fruit_predictions ->
             In part (split_comma (className pred)) ->
             assoc (trim part) Object_prototype = None).
  { intros pred part [<-|[<-|[<-|[]]]] [<-|[]]; reflexivity. }
  split; [exact Hown|].
  apply (@resolve_own_properties fruit_predictions Hown (VString "apple")).
  vm_compute. right. left. reflexivity.
Defined.

Lemma resolve_complete_witness :
  In padded_prediction [padded_prediction]
  /\ js_gt (probability padded_prediction) confidenceThreshold = true
  /\ In "  bagel " (split_comma (className padded_prediction))
  /\ assoc (trim "  bagel ") ingredientMap = Some "bread"
  /\ In (VString "bread") (resolve [padded_prediction]).
Proof.
  assert (H1 : In padded_prediction [padded_prediction]) by (now left).
  assert (H2 : js_gt (probability padded_prediction) confidenceThreshold
               = true) by (vm_compute; reflexivity).
  assert (H3 : In "  bagel " (split_comma (className padded_prediction)))
    by (vm_compute; right; left; reflexivity).
  assert (H4 : assoc (trim "  bagel ") ingredientMap = Some "bread")
    by (vm_compute; reflexivity).
  repeat split; try assumption.
  exact (@resolve_complete [padded_prediction] padded_prediction
           "  bagel " "bread" H1 H2 H3 H4).
Defined.

Lemma resolve_part_ignores_padding_witness :
  all_white_space "  " = true
  /\ all_white_space " " = true
  /\ trim ("  " ++ "bagel" ++ " ") = trim "bagel".
Proof.
  split; [reflexivity|]. split; [reflexivity|].
  apply (@resolve_part_ignores_padding padded_prediction [] "  " " " "bagel");
    reflexivity.
Defined.

Lemma encodeURIComponent_safe_witness :
  In "%"%char (list_ascii_of_string (encodeURIComponent "hot dog"))
  /\ escaped_unit "%" = true.
Proof.
  assert (H : In "%"%char
                (list_ascii_of_string (encodeURIComponent "hot dog")))
    by (vm_compute; do 3 right; left; reflexivity).
  split; [exact H|].
  apply (@encodeURIComponent_safe "hot dog" "%"%char H).
Defined.

Lemma label_stays_consistent_witness :
  label_consistent ready_page
  /\ run v8_builtin_source ready_page (Click :: analysis_turns)
     = Some analysis_page
  /\ label_consistent analysis_page.
Proof.
  assert (H : label_consistent ready_page) by (right; split; reflexivity).
  assert (Hrun : run v8_builtin_source ready_page (Click :: analysis_turns)
                 = Some analysis_page) by (vm_compute; reflexivity).
  split; [exact H|]. split; [exact Hrun|].
  exact (@label_stays_consistent v8_builtin_source
           (Click :: analysis_turns) ready_page analysis_page H Hrun).
Defined.

Lemma enabled_control_has_model_witness :
  pending (set_model false ready_page) = []
  /\ run v8_builtin_source (set_model false ready_page)
       [DOMContentLoaded; Settle 0 (ModelSettles None)]
     = Some (console_write (ConsoleLog [ArgString "Model loaded"]) ready_page)
  /\ model (console_write (ConsoleLog [ArgString "Model loaded"]) ready_page)
     = true.
Proof.
  assert (Hrun : run v8_builtin_source (set_model false ready_page)
                   [DOMContentLoaded; Settle 0 (ModelSettles None)]
                 = Some (console_write
                           (ConsoleLog [ArgString "Model loaded"])
                           ready_page)) by reflexivity.
  split; [reflexivity|]. split; [exact Hrun|].
  apply (@enabled_control_has_model v8_builtin_source
           [Settle 0 (ModelSettles None)]
           (set_model false ready_page)
           (console_write (ConsoleLog [ArgString "Model loaded"]) ready_page)
           eq_refl Hrun eq_refl).
Defined.

Lemma quiet_turns_witness :
  step v8_builtin_source (set_files0 false ready_page) Click
  = Some (alert "Please upload an image first." (set_files0 false ready_page))
  /\ (unhandled
        (alert "Please upload an image first." (set_files0 false ready_page))
      = unhandled (set_files0 false ready_page)
      \/ exists n err,
           Click = Settle n (ClassifySettles (inl err))
           /\ unhandled
                (alert "Please upload an image first."
                   (set_files0 false ready_page))
              = unhandled (set_files0 false ready_page) ++ [err]).
Proof.
  split; [reflexivity|].
  apply (@quiet_turns v8_builtin_source (set_files0 false ready_page)
           (alert "Please upload an image first."
              (set_files0 false ready_page))
           Click eq_refl).
Defined.

Lemma classification_failure_blocks_control_witness :
  model ready_page = true
  /\ files0 ready_page = true
  /\ exists s',
       run v8_builtin_source ready_page
         [Click; Settle 0 ImageLoads;
          Settle 0 (ClassifySettles (inl (JsError "classify failed")))]
       = Some s'
       /\ analyzeBtn_disabled s' = true.
Proof.
  split; [reflexivity|]. split; [reflexivity|].
  destruct (@classification_failure_blocks_control v8_builtin_source
              ready_page (JsError "classify failed") eq_refl eq_refl)
    as (s' & Hrun & Hdisabled & _).
  exists s'. split; [exact Hrun|exact Hdisabled].
Defined.

Lemma stale_fetch_survives_click_witness :
  model analysis_page = true
  /\ files0 analysis_page = true
  /\ nth_error
       (pending
          (suspend (Fetching (VString "banana") "url") analysis_page)) 0
     = Some (Fetching (VString "banana") "url")
  /\ exists s',
       run v8_builtin_source
         (suspend (Fetching (VString "banana") "url") analysis_page)
         [Click;
          Settle 0
            (FetchSettles
               (FetchResolves
                  {| ok := true; body := JsonData (Some apple_meals) |}));
          Settle 1 JsonSettles]
       = Some s'
       /\ recipesContainer s' = map make_card (firstn 3 apple_meals).
Proof.
  split; [reflexivity|]. split; [reflexivity|]. split; [reflexivity|].
  destruct (@stale_fetch_survives_click v8_builtin_source
              (suspend (Fetching (VString "banana") "url") analysis_page)
              0 (VString "banana") "url" apple_meals
              eq_refl eq_refl eq_refl)
    as (s' & Hrun & Hcards & _).
  exists s'. split; [exact Hrun|exact Hcards].
Defined.

Lemma settling_turns_bounded_witness :
  forallb is_settle analysis_turns = true
  /\ run v8_builtin_source (analyzeBtn_click ready_page) analysis_turns
     = Some analysis_page
  /\ length analysis_turns + pending_turns (pending analysis_page)
     <= pending_turns (pending (analyzeBtn_click ready_page)).
Proof.
  assert (Hrun : run v8_builtin_source (analyzeBtn_click ready_page)
                   analysis_turns
                 = Some analysis_page) by (vm_compute; reflexivity).
  split; [reflexivity|]. split; [exact Hrun|].
  exact (@settling_turns_bounded v8_builtin_source analysis_turns
           (analyzeBtn_click ready_page) analysis_page eq_refl Hrun).
Defined.

Lemma cards_after_click_bounded_witness :
  model ready_page = true
  /\ files0 ready_page = true
  /\ forallb (fun e => negb (is_click e)) analysis_turns = true
  /\ run v8_builtin_source ready_page (Click :: analysis_turns)
     = Some analysis_page
  /\ length (recipesContainer analysis_page)
     <= 108 + pending_cards (pending ready_page).
Proof.
  assert (Hrun : run v8_builtin_source ready_page (Click :: analysis_turns)
                 = Some analysis_page) by (vm_compute; reflexivity).
  split; [reflexivity|]. split; [reflexivity|]. split; [reflexivity|].
  split; [exact Hrun|].
  exact (@cards_after_click_bounded v8_builtin_source analysis_turns
           ready_page analysis_page eq_refl eq_refl eq_refl Hrun).
Defined.

Lemma vocabulary_entries_reachable_witness :
  In ("Granny Smith", "apple") ingredientMap
  /\ js_gt (lit 0.5) confidenceThreshold = true
  /\ resolve [ {| className := "Granny Smith"; probability := lit 0.5 |} ]
     = [VString "apple"].
Proof.
  assert (H1 : In ("Granny Smith", "apple") ingredientMap)
    by (right; left; reflexivity).
  assert (H2 : js_gt (lit 0.5) confidenceThreshold = true)
    by (vm_compute; reflexivity).
  split; [exact H1|]. split; [exact H2|].
  exact (@vocabulary_entries_reachable "Granny Smith" "apple" (lit 0.5)
           H1 H2).
Defined.

Lemma model_stays_loaded_witness :
  model ready_page = true
  /\ run v8_builtin_source ready_page
       [DOMContentLoaded;
        Settle 0 (ModelSettles (Some (JsError "Failed to fetch")))]
     = Some
         (console_write
            (ConsoleError [ArgError (JsError "Failed to fetch")])
            (set_textContent "Loading model..."
               (set_disabled true ready_page)))
  /\ model
       (console_write
          (ConsoleError [ArgError (JsError "Failed to fetch")])
          (set_textContent "Loading model..."
             (set_disabled true ready_page)))
     = true.
Proof.
  assert (Hrun : run v8_builtin_source ready_page
                   [DOMContentLoaded;
                    Settle 0
                      (ModelSettles (Some (JsError "Failed to fetch")))]
                 = Some
                     (console_write
                        (ConsoleError [ArgError (JsError "Failed to fetch")])
                        (set_textContent "Loading model..."
                           (set_disabled true ready_page))))
    by reflexivity.
  split; [reflexivity|]. split; [exact Hrun|].
  exact (@model_stays_loaded v8_builtin_source _ ready_page _ eq_refl Hrun).
Defined.

Lemma analysis_shows_resolved_witness :
  model ready_page = true
  /\ files0 ready_page = true
  /\ resolve fruit_predictions <> []
  /\ exists s',
       run v8_builtin_source ready_page
         [Click; Settle 0 ImageLoads;
          Settle 0 (ClassifySettles (inr fruit_predictions))]
       = Some s'
       /\ ingredientList s'
          = map (to_string v8_builtin_source) (resolve fruit_predictions).
Proof.
  assert (Hne : resolve fruit_predictions <> [])
    by (vm_compute; discriminate).
  split; [reflexivity|]. split; [reflexivity|]. split; [exact Hne|].
  destruct (@analysis_shows_resolved v8_builtin_source ready_page
              fruit_predictions eq_refl eq_refl Hne)
    as (s' & Hrun & Hlist & _).
  exists s'. split; [exact Hrun|exact Hlist].
Defined.
